(** * feed_txt_to_InfluxDBv1: a shallow embedding of the log forwarder

    The development follows [feed_txt_to_InfluxDBv1_v1.py] function by
    function.  Python [str] values are [string]s whose characters are the
    code points below 256; Python [int]s are [Z]; a [Path] is the string it
    prints as.  Effects (the diagnostic log, the console, [curl], [sleep],
    the file system) are threaded through a state-and-exception monad over a
    [World] that records the clock and the trace of effects performed. *)

From Stdlib Require Import ZArith List String Ascii Bool Lia.
From Stdlib Require Import Sorted Permutation.
From Stdlib Require Import DecimalString.
Import ListNotations.

Local Open Scope string_scope.
Local Open Scope Z_scope.

(* ------------------------------------------------------------------ *)
(** ** Python string operations used by the script                      *)
(* ------------------------------------------------------------------ *)

Module PyStr.

(** [str.isspace] on the code points below 256: TAB..CR, FS..US, SPACE,
    NEL (0x85) and NBSP (0xA0). *)
Definition is_space (c : ascii) : bool :=
  let n := nat_of_ascii c in
  (((9 <=? n) && (n <=? 13)) || ((28 <=? n) && (n <=? 32))
   || (n =? 133) || (n =? 160))%nat.

Fixpoint lstrip (s : string) : string :=
  match s with
  | EmptyString => EmptyString
  | String c s' => if is_space c then lstrip s' else s
  end.

Fixpoint rstrip (s : string) : string :=
  match s with
  | EmptyString => EmptyString
  | String c s' =>
      match rstrip s' with
      | EmptyString => if is_space c then EmptyString else String c EmptyString
      | r => String c r
      end
  end.

(** [s.strip()] *)
Definition strip (s : string) : string := rstrip (lstrip s).

(** [s.startswith(p)] *)
Fixpoint startswith (s p : string) : bool :=
  match p, s with
  | EmptyString, _ => true
  | String a p', String b s' => Ascii.eqb a b && startswith s' p'
  | String _ _, EmptyString => false
  end.

(** [s.split(sep)] for a one-character separator: never the empty list. *)
Fixpoint split (sep : ascii) (s : string) : list string :=
  match s with
  | EmptyString => [EmptyString]
  | String c s' =>
      if Ascii.eqb c sep then EmptyString :: split sep s'
      else match split sep s' with
           | [] => [String c EmptyString]
           | p :: ps => String c p :: ps
           end
  end.

(** [str(n)] for an [int]. *)
Definition of_Z (n : Z) : string := NilZero.string_of_int (Z.to_int n).

(** Bool-valued emptiness test: a Python string is falsy iff it is empty. *)
Definition truthy (s : string) : bool :=
  match s with EmptyString => false | _ => true end.

(** [a or b] on strings. *)
Definition or_ (a b : string) : string := if truthy a then a else b.

(** [needle in s] *)
Fixpoint contains (s needle : string) : bool :=
  startswith s needle ||
  match s with
  | EmptyString => false
  | String _ s' => contains s' needle
  end.

Fixpoint drop (n : nat) (s : string) : string :=
  match n, s with
  | O, _ => s
  | S n', String _ s' => drop n' s'
  | S _, EmptyString => EmptyString
  end.

Definition newline : ascii := "010"%char.

(** The text up to and including the first newline, or up to the end. *)
Fixpoint take_line (s : string) : string :=
  match s with
  | EmptyString => EmptyString
  | String c s' =>
      if Ascii.eqb c newline then String c EmptyString
      else String c (take_line s')
  end.

(** *** [repr(s)], which is what [%r] formats *)

Definition backslash : ascii := "092"%char.
Definition single_quote : ascii := "039"%char.
Definition double_quote : ascii := "034"%char.

(** [c in s] for one character. *)
Fixpoint has_char (c : ascii) (s : string) : bool :=
  match s with
  | EmptyString => false
  | String c' s' => Ascii.eqb c' c || has_char c s'
  end.

(** [str.isprintable] on the code points below 256: all but the controls
    (below 0x20, and 0x7F to 0x9F), NBSP (0xA0) and the soft hyphen
    (0xAD). *)
Definition is_printable (c : ascii) : bool :=
  let n := nat_of_ascii c in
  ((32 <=? n) && (n <? 127) || (161 <=? n) && negb (n =? 173))%nat.

Definition hex_digit (n : nat) : ascii :=
  ascii_of_nat (if (n <? 10)%nat then 48 + n else 87 + n).

(** One character between the quotes: the quote in use and the backslash
    behind a backslash, TAB, LF and CR by their letter, what does not
    print as [\xNN], the rest as it is. *)
Definition repr_char (quote c : ascii) : string :=
  if Ascii.eqb c quote || Ascii.eqb c backslash then String backslash (String c "")
  else if Ascii.eqb c "009" then String backslash "t"
  else if Ascii.eqb c "010" then String backslash "n"
  else if Ascii.eqb c "013" then String backslash "r"
  else if is_printable c then String c ""
  else
    let n := nat_of_ascii c in
    String backslash
      (String "x" (String (hex_digit (n / 16)) (String (hex_digit (n mod 16)) ""))).

Fixpoint repr_chars (quote : ascii) (s : string) : string :=
  match s with
  | EmptyString => EmptyString
  | String c s' => repr_char quote c ++ repr_chars quote s'
  end.

(** Single quotes, unless the string holds one and no double quote. *)
Definition repr (s : string) : string :=
  let quote :=
    if has_char single_quote s && negb (has_char double_quote s) then double_quote
    else single_quote in
  String quote (repr_chars quote s ++ String quote "").

End PyStr.

(* ------------------------------------------------------------------ *)
(** ** Configuration constants (lines 31-37)                            *)
(* ------------------------------------------------------------------ *)

Definition Path := string.

Definition HOST := "hostname".
Definition PORT := "8086".
Definition INFLUXDB_DB_NAME := "influxdb_name".
Definition MEASUREMENT := "mydatameasurement".
Definition CHECK_INTERVAL : Z := 60.
Definition INFLUXDB_URL :=
  "http://" ++ HOST ++ ":" ++ PORT ++ "/write?db=" ++ INFLUXDB_DB_NAME.

(* ------------------------------------------------------------------ *)
(** ** Directory scanner (lines 57-68)                                  *)
(* ------------------------------------------------------------------ *)

(** [sorted(xs, key=...)] is a stable sort; on pairs (key, path) it is
    insertion of each element before the first strictly later key of the
    already sorted suffix. *)
Fixpoint insert_by_key (x : Z * Path) (l : list (Z * Path)) : list (Z * Path) :=
  match l with
  | [] => [x]
  | y :: l' => if fst x <=? fst y then x :: l else y :: insert_by_key x l'
  end.

Definition sorted_by_key (l : list (Z * Path)) : list (Z * Path) :=
  fold_right insert_by_key [] l.

(** [files.index(current)]: position of the first occurrence. *)
Fixpoint index (current : Path) (files : list Path) : option nat :=
  match files with
  | [] => None
  | f :: files' =>
      if String.eqb f current then Some O
      else option_map S (index current files')
  end.

(** [files[-1] if files else None] *)
Definition last_or_none (files : list Path) : option Path :=
  match files with
  | [] => None
  | f :: files' => Some (last files' f)
  end.

Definition find_next_file (current : Path) (files : list Path) : option Path :=
  match index current files with
  | None => last_or_none files
  | Some idx =>
      if (idx + 1 <? List.length files)%nat then nth_error files (idx + 1) else None
  end.

(* ------------------------------------------------------------------ *)
(** ** Exceptions                                                       *)
(* ------------------------------------------------------------------ *)

(** The exceptions the script distinguishes.  Each carries the text
    [str(e)] prints; [CalledProcessError] also carries what line 94-95
    inspects. *)
Inductive exn : Type :=
| KeyboardInterrupt
| ValueError (msg : string)
| OSError (msg : string)
| FileNotFoundError (msg : string)
| CalledProcessError (returncode : Z) (stdout stderr : string) (msg : string)
| TimeoutExpired (msg : string)
| OtherException (msg : string).

(** [isinstance(e, Exception)]: all but [KeyboardInterrupt], which derives
    from [BaseException] only. *)
Definition is_Exception (e : exn) : bool :=
  match e with
  | KeyboardInterrupt => false
  | _ => true
  end.

(** [str(e)] *)
Definition str_exn (e : exn) : string :=
  match e with
  | KeyboardInterrupt => ""
  | ValueError m | OSError m | FileNotFoundError m
  | TimeoutExpired m | OtherException m => m
  | CalledProcessError _ _ _ m => m
  end.

(* ------------------------------------------------------------------ *)
(** ** [time.strptime] and [calendar.timegm] (used on line 73)          *)
(* ------------------------------------------------------------------ *)

Module PyTime.

(** The first six items of a [struct_time], which are all [timegm] reads. *)
Record struct_time : Type := mk_tm {
  tm_year : Z; tm_mon : Z; tm_mday : Z;
  tm_hour : Z; tm_min : Z; tm_sec : Z
}.

(** [strptime] compiles its format to a regular expression and matches it
    by backtracking.  A matcher returns its successes in the order the
    regular-expression engine tries them. *)
Definition matcher (A : Type) : Type := string -> list (A * string).

Definition mret {A} (a : A) : matcher A := fun s => [(a, s)].

Definition mbind {A B} (m : matcher A) (f : A -> matcher B) : matcher B :=
  fun s => flat_map (fun ar => f (fst ar) (snd ar)) (m s).

Definition alt {A} (m1 m2 : matcher A) : matcher A := fun s => (m1 s ++ m2 s)%list.

(** The value of a character that [\d] matches.  In a [str] pattern [\d]
    stands for the decimal digits of Unicode; below code point 256, which
    is where the strings of this development live, those are [0] to [9]
    and nothing else. *)
Definition digit_val (c : ascii) : option Z :=
  let n := nat_of_ascii c in
  if ((48 <=? n) && (n <=? 57))%nat then Some (Z.of_nat (n - 48)) else None.

(** One digit in the class [[lo-hi]]. *)
Definition cls (lo hi : Z) : matcher Z := fun s =>
  match s with
  | String c s' =>
      match digit_val c with
      | Some d => if (lo <=? d) && (d <=? hi) then [(d, s')] else []
      | None => []
      end
  | EmptyString => []
  end.

(** Two digit classes in a row, read as a decimal number. *)
Definition cls2 (lo1 hi1 lo2 hi2 : Z) : matcher Z :=
  mbind (cls lo1 hi1) (fun a => mbind (cls lo2 hi2) (fun b => mret (10 * a + b))).

Definition lower (c : ascii) : ascii :=
  let n := nat_of_ascii c in
  if ((65 <=? n) && (n <=? 90))%nat then ascii_of_nat (n + 32) else c.

(** A literal character of the format; the expression is compiled with
    [IGNORECASE]. *)
Definition lit (c : ascii) : matcher unit := fun s =>
  match s with
  | String c' s' => if Ascii.eqb (lower c') (lower c) then [(tt, s')] else []
  | EmptyString => []
  end.

(** [%Y]: [\d\d\d\d] *)
Definition re_Y : matcher Z :=
  mbind (cls2 0 9 0 9) (fun hi => mbind (cls2 0 9 0 9) (fun lo => mret (100 * hi + lo))).

(** [%m]: [1[0-2]|0[1-9]|[1-9]] *)
Definition re_m : matcher Z :=
  alt (cls2 1 1 0 2) (alt (cls2 0 0 1 9) (cls 1 9)).

(** [%d]: [3[0-1]|[1-2]\d|0[1-9]|[1-9]| [1-9]] *)
Definition re_d : matcher Z :=
  alt (cls2 3 3 0 1)
    (alt (cls2 1 2 0 9)
       (alt (cls2 0 0 1 9)
          (alt (cls 1 9) (mbind (lit " ") (fun _ => cls 1 9))))).

(** [%H]: [2[0-3]|[0-1]\d|\d] *)
Definition re_H : matcher Z :=
  alt (cls2 2 2 0 3) (alt (cls2 0 1 0 9) (cls 0 9)).

(** [%M]: [[0-5]\d|\d] *)
Definition re_M : matcher Z := alt (cls2 0 5 0 9) (cls 0 9).

(** [%S]: [6[0-1]|[0-5]\d|\d] *)
Definition re_S : matcher Z :=
  alt (cls2 6 6 0 1) (alt (cls2 0 5 0 9) (cls 0 9)).

(** The expression of the format ["%Y-%m-%dT%H:%M:%SZ"]. *)
Definition re_format : matcher struct_time :=
  mbind re_Y (fun Y => mbind (lit "-") (fun _ =>
  mbind re_m (fun m => mbind (lit "-") (fun _ =>
  mbind re_d (fun d => mbind (lit "T") (fun _ =>
  mbind re_H (fun H => mbind (lit ":") (fun _ =>
  mbind re_M (fun M => mbind (lit ":") (fun _ =>
  mbind re_S (fun S => mbind (lit "Z") (fun _ =>
  mret (mk_tm Y m d H M S))))))))))))).

Definition is_leap (year : Z) : bool :=
  (year mod 4 =? 0) && (negb (year mod 100 =? 0) || (year mod 400 =? 0)).

Definition days_in_month (year month : Z) : Z :=
  if (month =? 2) && is_leap year then 29
  else nth (Z.to_nat month) [-1; 31; 28; 31; 30; 31; 30; 31; 31; 30; 31; 30; 31] 0.

Definition days_before_month (year month : Z) : Z :=
  nth (Z.to_nat month) [-1; 0; 31; 59; 90; 120; 151; 181; 212; 243; 273; 304; 334] 0
  + (if (2 <? month) && is_leap year then 1 else 0).

Definition days_before_year (year : Z) : Z :=
  let y := year - 1 in
  y * 365 + y / 4 - y / 100 + y / 400.

(** [datetime.date(year, month, day).toordinal()] *)
Definition ymd2ord (year month day : Z) : Z :=
  days_before_year year + days_before_month year month + day.

(** The range checks of the [datetime.date] constructor. *)
Definition check_date (year month day : Z) : option exn :=
  if negb ((1 <=? year) && (year <=? 9999)) then
    Some (ValueError ("year " ++ PyStr.of_Z year ++ " is out of range"))
  else if negb ((1 <=? month) && (month <=? 12)) then
    Some (ValueError "month must be in 1..12")
  else if negb ((1 <=? day) && (day <=? days_in_month year month)) then
    Some (ValueError "day is out of range for month")
  else None.

Definition FORMAT := "%Y-%m-%dT%H:%M:%SZ".

(** [time.strptime(data, "%Y-%m-%dT%H:%M:%SZ")]: the first match of the
    expression must consume the whole string, and the date must exist (the
    day of the week and of the year are computed from it). *)
Definition strptime (data : string) : exn + struct_time :=
  match re_format data with
  | [] =>
      inl (ValueError ("time data " ++ PyStr.repr data ++ " does not match format "
                       ++ PyStr.repr FORMAT))
  | (tm, rest) :: _ =>
      if PyStr.truthy rest then
        inl (ValueError ("unconverted data remains: " ++ rest))
      else match check_date (tm_year tm) (tm_mon tm) (tm_mday tm) with
           | Some e => inl e
           | None => inr tm
           end
  end.

Definition EPOCH_ORD : Z := ymd2ord 1970 1 1.

(** [calendar.timegm] *)
Definition timegm (tm : struct_time) : Z :=
  let days := ymd2ord (tm_year tm) (tm_mon tm) 1 - EPOCH_ORD + tm_mday tm - 1 in
  let hours := days * 24 + tm_hour tm in
  let minutes := hours * 60 + tm_min tm in
  minutes * 60 + tm_sec tm.

End PyTime.

(** Line 71-73. *)
Definition iso_z_to_ns (iso_z : string) : exn + Z :=
  match PyTime.strptime iso_z with
  | inl e => inl e
  | inr tm => inr (PyTime.timegm tm * 1000000000)
  end.

(* ------------------------------------------------------------------ *)
(** ** The world the script runs in                                     *)
(* ------------------------------------------------------------------ *)

(** What the script does to its surroundings, in the order it does it.
    [Log m] is one call [log(m)]: the line appended to the log file is [m]
    behind a wall-clock prefix, which is left out. *)
Inductive event : Type :=
| Log (message : string)
| Stdout (message : string)
| Stderr (message : string)
| Curl (cmd : list string) (timeout : Z)
| Sleep (secs : Z)
| Open (p : Path)
| ListDir.

(** What the surroundings answer.  Time is the number of seconds slept so
    far, and the file system is a function of it:
    - [is_file t p]: [p.is_file()];
    - [open_error t p]: what [p.open(...)] raises, [None] when it succeeds;
    - [content t p]: the decoded text (newlines translated) that a handle
      opened on [p] can read at time [t];
    - [glob_txt t]: [directory.glob("*.txt")] for the directory of the
      start file;
    - [st_mtime t p]: [p.stat().st_mtime], or what [stat] raises;
    - [run_curl k cmd timeout]: the fate of the [k]-th run of curl
      (counting from 0), [None] when curl exits with status 0, otherwise
      what [subprocess.run] raises;
    - [sleep_interrupted t]: an interrupt arrives during the sleep that
      starts at [t]. *)
Record Env : Type := mk_env {
  is_file : Z -> Path -> bool;
  open_error : Z -> Path -> option exn;
  content : Z -> Path -> string;
  glob_txt : Z -> list Path;
  st_mtime : Z -> Path -> exn + Z;
  run_curl : nat -> list string -> Z -> option exn;
  sleep_interrupted : Z -> bool
}.

Record World : Type := mk_world {
  now : Z;
  trace : list event
}.

Definition emit (ev : event) (w : World) : World :=
  mk_world (now w) (trace w ++ [ev])%list.

(** Computations that may raise. *)
Definition M (A : Type) : Type := World -> (exn + A) * World.

Definition ret {A} (a : A) : M A := fun w => (inr a, w).

Definition raise {A} (e : exn) : M A := fun w => (inl e, w).

Definition bind {A B} (c : M A) (k : A -> M B) : M B := fun w =>
  match c w with
  | (inl e, w') => (inl e, w')
  | (inr a, w') => k a w'
  end.

Declare Scope py_scope.
Delimit Scope py_scope with py.
Notation "x <- c ;; k" := (bind c (fun x => k))
  (at level 61, c at next level, right associativity) : py_scope.
Notation "c ;; k" := (bind c (fun _ => k))
  (at level 61, right associativity) : py_scope.
Local Open Scope py_scope.

Definition perform (ev : event) : M unit := fun w => (inr tt, emit ev w).

(** [try: body  except Exception as e: handler(e)] *)
Definition try_except {A} (body : M A) (handler : exn -> M A) : M A := fun w =>
  match body w with
  | (inl e, w') => if is_Exception e then handler e w' else (inl e, w')
  | r => r
  end.

(** Line 50-54. *)
Definition log (message : string) : M unit := perform (Log message).

Definition print (message : string) : M unit := perform (Stdout message).

Definition is_curl (ev : event) : bool :=
  match ev with Curl _ _ => true | _ => false end.

Definition curl_runs (t : list event) : nat := List.length (filter is_curl t).

Section Script.

Variable env : Env.

(** [subprocess.run(cmd, check=True, capture_output=True, text=True,
    timeout=timeout)] *)
Definition subprocess_run (cmd : list string) (timeout : Z) : M unit := fun w =>
  let w' := emit (Curl cmd timeout) w in
  match run_curl env (curl_runs (trace w)) cmd timeout with
  | Some e => (inl e, w')
  | None => (inr tt, w')
  end.

(** [time.sleep(secs)], for an interval the timer of the platform can
    hold.  (An interval of about 2^63 nanoseconds, some 9.2e9 seconds, or
    more makes [time.sleep] raise [OSError] or [OverflowError] instead;
    the statement about arbitrarily many sleeps bounds the interval by
    [LONGEST_WAIT] below.) *)
Definition sleep (secs : Z) : M unit := fun w =>
  if secs <? 0 then (inl (ValueError "sleep length must be non-negative"), w)
  else
    let w' := emit (Sleep secs) w in
    if sleep_interrupted env (now w) then (inl KeyboardInterrupt, w')
    else (inr tt, mk_world (now w + secs) (trace w')).

(** Line 57-59: the keys are computed for every path of the glob, in
    order, before sorting. *)
Fixpoint stat_all (t : Z) (ps : list Path) : exn + list (Z * Path) :=
  match ps with
  | [] => inr []
  | p :: ps' =>
      match st_mtime env t p with
      | inl e => inl e
      | inr k =>
          match stat_all t ps' with
          | inl e => inl e
          | inr l => inr ((k, p) :: l)
          end
      end
  end.

Definition list_txt_files : M (list Path) := fun w =>
  let w' := emit ListDir w in
  match stat_all (now w) (glob_txt env (now w)) with
  | inl e => (inl e, w')
  | inr keyed => (inr (map snd (sorted_by_key keyed)), w')
  end.

(** *** Sender (lines 76-106) *)

Record Sender : Type := mk_sender { url : string }.

Definition DEFAULT_TIMEOUT : Z := 10.

Definition send (self : Sender) (line_protocol : string) (timeout : Z) : M unit :=
  let cmd := ["curl"; "-f"; "-sS"; "-XPOST"; url self; "--data-binary"; line_protocol] in
  try_except (subprocess_run cmd timeout) (fun e =>
    match e with
    | CalledProcessError returncode stdout stderr _ =>
        let msg := PyStr.strip (PyStr.or_ (PyStr.or_ stderr stdout) "") in
        log ("[ERROR] curl exited with code " ++ PyStr.of_Z returncode ++ ": " ++ msg) ;;
        print ("[ERROR] curl exited with code " ++ PyStr.of_Z returncode ++ ": " ++ msg)
    | TimeoutExpired _ =>
        log ("[ERROR] curl timeout after " ++ PyStr.of_Z timeout ++ "s: " ++ str_exn e) ;;
        print ("[ERROR] curl timeout after " ++ PyStr.of_Z timeout ++ "s: " ++ str_exn e)
    | FileNotFoundError _ =>
        log "[ERROR] curl not found on PATH" ;;
        print "[ERROR] curl not found on PATH"
    | _ =>
        log ("[ERROR] Unexpected error during curl: " ++ str_exn e) ;;
        print ("[ERROR] Unexpected error during curl: " ++ str_exn e)
    end ;;
    raise e).

(** *** Record codec (lines 109-164) *)

Definition expected_len : nat := 2 + 15 + 1.

(** [parts[i]] for an index known to be in range. *)
Definition item (parts : list string) (i : nat) : string := nth i parts "".

(** The f-string of line 152. *)
Definition fields_of (parts : list string) : string :=
  "T1=" ++ item parts 2 ++ ",T2=" ++ item parts 3 ++
  ",T3=" ++ item parts 4 ++ ",T4=" ++ item parts 5 ++
  ",Pwr1=" ++ item parts 6 ++ ",Pwr2=" ++ item parts 7 ++
  ",Pwr3=" ++ item parts 8 ++ ",Pwr4=" ++ item parts 9 ++
  ",LEDamp=" ++ item parts 10 ++ ",LEDwidth=" ++ item parts 11 ++
  ",Threshold=" ++ item parts 12 ++
  ",V1=" ++ item parts 13 ++ ",V2=" ++ item parts 14 ++
  ",V3=" ++ item parts 15 ++ ",V4=" ++ item parts 16.

(** The f-string of line 153. *)
Definition line_protocol_of (parts : list string) (measurement_time : Z) : string :=
  MEASUREMENT ++ "," ++ ("host=" ++ item parts 1) ++ " " ++ fields_of parts
  ++ " " ++ PyStr.of_Z measurement_time.

(** The [try] suite of lines 122-156; the result says whether the suite ran
    to its end ([true]) or left through the [return] of line 126. *)
Definition process_line_body (line : string) (sender : Sender) (line_number : Z)
  : M bool :=
  let parts := PyStr.split "," line in
  if negb (List.length parts =? expected_len)%nat then
    log ("[SKIP] Unexpected 'expected_len' in line " ++ PyStr.of_Z line_number
         ++ " : " ++ line) ;;
    ret false
  else
    let host := item parts 1 in
    let measurement_time_str := last parts "" in
    match iso_z_to_ns measurement_time_str with
    | inl e => raise e
    | inr measurement_time =>
        let fields := fields_of parts in
        let line_protocol := line_protocol_of parts measurement_time in
        print ("[PARSED] Line " ++ PyStr.of_Z line_number ++ " : host=" ++ host
               ++ ", " ++ fields ++ ", time=" ++ PyStr.of_Z measurement_time) ;;
        send sender line_protocol DEFAULT_TIMEOUT ;;
        ret true
    end.

Definition process_line (line : string) (sender : Sender) (line_number : Z) : M unit :=
  completed <-
    try_except (process_line_body line sender line_number) (fun e =>
      log ("[ERROR] Parse failed on Line " ++ PyStr.of_Z line_number ++ " : "
           ++ line ++ " | Reason: " ++ str_exn e) ;;
      raise e) ;;
  (* the [else] clause runs only when the suite was not left by [return] *)
  if completed : bool then log ("[PARSED] Line " ++ PyStr.of_Z line_number ++ " : " ++ line)
  else ret tt.

(** *** Tailing engine (lines 170-215) *)

(** The open handle [f] together with [line_number]: the file it was opened
    on, how many characters of it have been read, and the number of the last
    line read. *)
Record Cursor : Type := mk_cursor {
  file : Path;
  pos : nat;
  line_number : Z
}.

(** [f.readline()]: the empty string at end of file, else the text up to
    and including the next newline (or up to the end if the last line is
    not terminated yet). *)
Definition readline (c : Cursor) : M string := fun w =>
  (inr (PyStr.take_line (PyStr.drop (pos c) (content env (now w) (file c)))), w).

(** Lines 185-191, and again 197-203: read a line and process it if it is
    a candidate.  The flag is [true] when the [continue] was reached. *)
Definition read_and_process (sender : Sender) (c : Cursor) : M (bool * Cursor) :=
  line <- readline c ;;
  if PyStr.truthy line then
    let c' := mk_cursor (file c) (pos c + String.length line) (line_number c + 1) in
    let line := PyStr.strip line in
    if PyStr.startswith line MEASUREMENT then
      process_line line sender (line_number c') ;;
      ret (true, c')
    else ret (false, c')
  else ret (false, c).

(** How one pass through the body of the internal loop ends. *)
Inductive flow : Type :=
| Continue (c : Cursor)
| Break (newer : Path).

(** Lines 205-210: look for the file after [current]. *)
Definition rotation_check (current : Path) (c : Cursor) : M flow :=
  files <- list_txt_files ;;
  match find_next_file current files with
  | Some newer => ret (Break newer)
  | None => ret (Continue c)
  end.

(** Lines 196-210: what follows the sleep. *)
Definition retry_after_wait (sender : Sender) (current : Path) (c : Cursor) : M flow :=
  r <- read_and_process sender c ;;
  if fst r then ret (Continue (snd r))
  else rotation_check current (snd r).

(** One pass through the body of the internal loop (lines 184-210). *)
Definition inner_iteration (sender : Sender) (wait_time : Z) (c : Cursor) : M flow :=
  r <- read_and_process sender c ;;
  if fst r then ret (Continue (snd r))
  else
    sleep wait_time ;;
    retry_after_wait sender (file c) (snd r).

(** Where control is in [process_files]: about to open [current]
    (line 179), or at the head of the internal loop (line 183). *)
Inductive engine : Type :=
| AtOpen (current : Path)
| InLoop (c : Cursor).

Definition open_file (p : Path) : M unit := fun w =>
  let w' := emit (Open p) w in
  match open_error env (now w) p with
  | Some e => (inl e, w')
  | None => (inr tt, w')
  end.

Definition engine_step (sender : Sender) (wait_time : Z) (st : engine) : M engine :=
  match st with
  | AtOpen current =>
      open_file current ;;
      log ("[OPEN] Processing file: " ++ current) ;;
      ret (InLoop (mk_cursor current 0 0))
  | InLoop c =>
      fl <- inner_iteration sender wait_time c ;;
      ret (match fl with
           | Continue c' => InLoop c'
           | Break newer => AtOpen newer
           end)
  end.

(** The two loops of [process_files], run for at most [fuel] steps from
    [st].  The [except] clauses of lines 212-215 re-raise what they catch,
    so an exception is the result as it is; there is no normal return. *)
Fixpoint run (fuel : nat) (sender : Sender) (wait_time : Z) (st : engine)
  : M engine :=
  match fuel with
  | O => ret st
  | S fuel' => st' <- engine_step sender wait_time st ;; run fuel' sender wait_time st'
  end.

Definition process_files (fuel : nat) (start_file : Path) (sender : Sender)
  (wait_time : Z) : M engine :=
  run fuel sender wait_time (AtOpen start_file).

(** *** Entry point (lines 221-255) *)

Inductive status : Type :=
| Exited (code : Z)
| Running (st : engine).

(** Lines 246-255, with the engine started at [st]. *)
Definition guarded (fuel : nat) (sender : Sender) (wait_time : Z) (st : engine)
  (w : World) : status * World :=
  match run fuel sender wait_time st w with
  | (inr st', w') => (Running st', w')
  | (inl KeyboardInterrupt, w') =>
      (Exited 0,
       snd ((log "[INFO] Interrupted by user." ;;
             print (String PyStr.newline "Interrupted by user.")) w'))
  | (inl e, w') => (Exited 1, snd (log ("[FATAL] " ++ str_exn e) w'))
  end.

Definition main (fuel : nat) (start_file : Path) (wait : Z) (w : World)
  : status * World :=
  if negb (is_file env (now w) start_file) then
    (Exited 1,
     emit (Stderr ("Start file '" ++ start_file
                   ++ "' does not exist or is not a regular file.")) w)
  else guarded fuel (mk_sender INFLUXDB_URL) wait (AtOpen start_file) w.

End Script.

Definition world0 : World := mk_world 0 [].

(* ------------------------------------------------------------------ *)
(** ** Derived notions used in the statements                           *)
(* ------------------------------------------------------------------ *)

(** The raw line the next [readline] on [c] returns in world [w]. *)
Definition next_raw (env : Env) (c : Cursor) (w : World) : string :=
  PyStr.take_line (PyStr.drop (pos c) (content env (now w) (file c))).

(** The cursor after reading [raw]. *)
Definition advance (c : Cursor) (raw : string) : Cursor :=
  mk_cursor (file c) (pos c + String.length raw) (line_number c + 1).

(** A stripped line is a candidate when it starts with the marker. *)
Definition candidate (line : string) : bool := PyStr.startswith line MEASUREMENT.

Definition field_count_ok (line : string) : bool :=
  (List.length (PyStr.split "," line) =? expected_len)%nat.

Definition timestamp_of (line : string) : string := last (PyStr.split "," line) "".

Definition timestamp_ok (line : string) : bool :=
  match iso_z_to_ns (timestamp_of line) with inr _ => true | inl _ => false end.

(** The command line [send] builds. *)
Definition curl_cmd (sender : Sender) (line_protocol : string) : list string :=
  ["curl"; "-f"; "-sS"; "-XPOST"; url sender; "--data-binary"; line_protocol].

(** The notice [send] writes to the log and to the console when [e] was
    raised (lines 93-105). *)
Definition curl_notice (e : exn) (timeout : Z) : string :=
  match e with
  | CalledProcessError returncode stdout stderr _ =>
      "[ERROR] curl exited with code " ++ PyStr.of_Z returncode ++ ": "
      ++ PyStr.strip (PyStr.or_ (PyStr.or_ stderr stdout) "")
  | TimeoutExpired _ =>
      "[ERROR] curl timeout after " ++ PyStr.of_Z timeout ++ "s: " ++ str_exn e
  | FileNotFoundError _ => "[ERROR] curl not found on PATH"
  | _ => "[ERROR] Unexpected error during curl: " ++ str_exn e
  end.

Definition skip_message (line : string) (n : Z) : string :=
  "[SKIP] Unexpected 'expected_len' in line " ++ PyStr.of_Z n ++ " : " ++ line.

Definition parse_failed_message (line : string) (n : Z) (e : exn) : string :=
  "[ERROR] Parse failed on Line " ++ PyStr.of_Z n ++ " : " ++ line
  ++ " | Reason: " ++ str_exn e.

Definition parsed_notice (line : string) (n : Z) (ns : Z) : string :=
  "[PARSED] Line " ++ PyStr.of_Z n ++ " : host=" ++ item (PyStr.split "," line) 1
  ++ ", " ++ fields_of (PyStr.split "," line) ++ ", time=" ++ PyStr.of_Z ns.

Definition parsed_message (line : string) (n : Z) : string :=
  "[PARSED] Line " ++ PyStr.of_Z n ++ " : " ++ line.

(** Appending a list of events. *)
Definition emits (evs : list event) (w : World) : World :=
  mk_world (now w) (trace w ++ evs)%list.

(** The line-protocol string of a line whose timestamp converts to [ns]. *)
Definition payload (line : string) (ns : Z) : string :=
  line_protocol_of (PyStr.split "," line) ns.

(** The world after [time.sleep(wait_time)] returned. *)
Definition slept (wait_time : Z) (w : World) : World :=
  mk_world (now w + wait_time) (trace w ++ [Sleep wait_time])%list.

(** [hands_over env sender wait_time c w line n c' w0]: the pass of the
    internal loop that starts with cursor [c] in world [w] calls
    [process_line(line, sender, n)] in world [w0], and the cursor is [c']
    afterwards.  The call is made at the first read (line 190), or, when the
    first read did not reach its [continue], at the read after the sleep
    (line 202). *)
Inductive hands_over (env : Env) (sender : Sender) (wait_time : Z) (c : Cursor) (w : World)
  : string -> Z -> Cursor -> World -> Prop :=
| at_first_read :
    PyStr.truthy (next_raw env c w) = true ->
    candidate (PyStr.strip (next_raw env c w)) = true ->
    hands_over env sender wait_time c w
      (PyStr.strip (next_raw env c w)) (line_number c + 1)
      (advance c (next_raw env c w)) w
| at_second_read c1 :
    read_and_process env sender c w = (inr (false, c1), w) ->
    0 <= wait_time ->
    sleep_interrupted env (now w) = false ->
    PyStr.truthy (next_raw env c1 (slept wait_time w)) = true ->
    candidate (PyStr.strip (next_raw env c1 (slept wait_time w))) = true ->
    hands_over env sender wait_time c w
      (PyStr.strip (next_raw env c1 (slept wait_time w))) (line_number c1 + 1)
      (advance c1 (next_raw env c1 (slept wait_time w))) (slept wait_time w).

(** The sender [main] builds on line 243. *)
Definition the_sender : Sender := mk_sender INFLUXDB_URL.

(** [reaches env wait start w_init k st w]: started in world [w_init] on
    an existing [start] file, [main] is, [k] steps of the engine later, at
    [st] in world [w], no exception raised so far. *)
Definition reaches (env : Env) (wait : Z) (start : Path) (w_init : World)
  (k : nat) (st : engine) (w : World) : Prop :=
  is_file env (now w_init) start = true /\
  run env k the_sender wait (AtOpen start) w_init = (inr st, w).

Definition mtime_of (env : Env) (t : Z) (p : Path) : Z :=
  match st_mtime env t p with inr k => k | inl _ => 0 end.

Definition key_le (x y : Z * Path) : Prop := fst x <= fst y.

Definition digit_char (d : Z) : ascii := ascii_of_nat (48 + Z.to_nat d).

Definition two_digits (n : Z) : string :=
  String (digit_char (n / 10)) (String (digit_char (n mod 10)) EmptyString).

Definition four_digits (n : Z) : string := two_digits (n / 100) ++ two_digits (n mod 100).

(** [YYYY-MM-DDTHH:MM:SSZ] *)
Definition exact_form (Y M D h mi s : Z) : string :=
  four_digits Y ++ "-" ++ two_digits M ++ "-" ++ two_digits D ++ "T"
  ++ two_digits h ++ ":" ++ two_digits mi ++ ":" ++ two_digits s ++ "Z".

(** Seconds from 1970-01-01T00:00:00Z to the given UTC time. *)
Definition epoch_seconds (Y M D h mi s : Z) : Z :=
  (PyTime.ymd2ord Y M D - PyTime.ymd2ord 1970 1 1) * 86400 + h * 3600 + mi * 60 + s.

(** The first success of a matcher. *)
Definition first_is {A} (l : list (A * string)) (a : A) (rest : string) : Prop :=
  exists tl, l = (a, rest) :: tl.

(** The line-protocol string in the words of the specification:
    measurement, comma, host tag, space, the fifteen comma-joined field
    assignments, space, nanosecond timestamp; every value as it is. *)
Definition spec_line_protocol (host : string)
  (t1 t2 t3 t4 pwr1 pwr2 pwr3 pwr4 ledamp ledwidth threshold v1 v2 v3 v4 : string)
  (timestamp_ns : Z) : string :=
  "mydatameasurement,host=" ++ host ++
  " T1=" ++ t1 ++ ",T2=" ++ t2 ++ ",T3=" ++ t3 ++ ",T4=" ++ t4 ++
  ",Pwr1=" ++ pwr1 ++ ",Pwr2=" ++ pwr2 ++ ",Pwr3=" ++ pwr3 ++ ",Pwr4=" ++ pwr4 ++
  ",LEDamp=" ++ ledamp ++ ",LEDwidth=" ++ ledwidth ++ ",Threshold=" ++ threshold ++
  ",V1=" ++ v1 ++ ",V2=" ++ v2 ++ ",V3=" ++ v3 ++ ",V4=" ++ v4 ++
  " " ++ PyStr.of_Z timestamp_ns.


Fixpoint all_space (s : string) : bool :=
  match s with
  | EmptyString => true
  | String c s' => PyStr.is_space c && all_space s'
  end.

Fixpoint no_newline (s : string) : bool :=
  match s with
  | EmptyString => true
  | String c s' => negb (Ascii.eqb c PyStr.newline) && no_newline s'
  end.

(** No newline except, possibly, as the last character. *)
Fixpoint newline_only_last (s : string) : bool :=
  match s with
  | EmptyString => true
  | String c s' =>
      if Ascii.eqb c PyStr.newline then negb (PyStr.truthy s') else newline_only_last s'
  end.

(** The world after [n] idle passes: each sleeps and lists the directory. *)
Fixpoint idle (wait_time : Z) (n : nat) (w : World) : World :=
  match n with
  | O => w
  | S n' => idle wait_time n' (emits [ListDir] (slept wait_time w))
  end.

(* ------------------------------------------------------------------ *)
(** ** Sample file systems                                              *)
(* ------------------------------------------------------------------ *)

Module Sample.

Definition nl : string := String PyStr.newline "".

Fixpoint lookup {A} (p : Path) (l : list (Path * A)) : option A :=
  match l with
  | [] => None
  | (q, a) :: l' => if String.eqb q p then Some a else lookup p l'
  end.

(** A directory that does not change: the files, in glob order, each with
    its modification time and its text.  Nobody interrupts. *)
Definition static (files : list (Path * (Z * string)))
  (curl : nat -> list string -> Z -> option exn) : Env :=
  mk_env
    (fun _ p => match lookup p files with Some _ => true | None => false end)
    (fun _ p => match lookup p files with
                | Some _ => None
                | None => Some (FileNotFoundError "No such file or directory")
                end)
    (fun _ p => match lookup p files with Some (_, text) => text | None => "" end)
    (fun _ => map fst files)
    (fun _ p => match lookup p files with
                | Some (mtime, _) => inr mtime
                | None => inl (FileNotFoundError "No such file or directory")
                end)
    curl
    (fun _ => false).

Definition delivered : nat -> list string -> Z -> option exn := fun _ _ _ => None.

Definition a_txt : Path := "/data/a.txt".
Definition b_txt : Path := "/data/b.txt".

(** The line of the end-to-end scenario. *)
Definition good_line : string :=
  "mydatameasurement,host1,1,2,3,4,5,6,7,8,9,10,11,12,13,14,15,2025-06-09T21:58:12Z".

Definition good_payload : string :=
  "mydatameasurement,host=host1 T1=1,T2=2,T3=3,T4=4,Pwr1=5,Pwr2=6,Pwr3=7,Pwr4=8,LEDamp=9,LEDwidth=10,Threshold=11,V1=12,V2=13,V3=14,V4=15 1749506292000000000".

(** A candidate with all eighteen fields and a timestamp that is no date. *)
Definition bad_time_line : string :=
  "mydatameasurement,host1,1,2,3,4,5,6,7,8,9,10,11,12,13,14,15,yesterday".

(** A candidate cut short. *)
Definition short_line : string := "mydatameasurement,host1,1,2,3".

Definition http_404 : exn :=
  CalledProcessError 22 "" "curl: (22) The requested URL returned error: 404"
    "Command returned non-zero exit status 22.".

Definition rejected : nat -> list string -> Z -> option exn :=
  fun _ _ _ => Some http_404.

Definition at_start (p : Path) : Cursor := mk_cursor p 0 0.

Definition opened (p : Path) : World :=
  mk_world 0 [Open p; Log ("[OPEN] Processing file: " ++ p)].

End Sample.

(** One well-formed line in [a.txt]; the server answers 404 to every post. *)
Definition env_rejecting : Env :=
  Sample.static [(Sample.a_txt, (1, Sample.good_line ++ Sample.nl))] Sample.rejected.

(** One line in [a.txt], whose timestamp is no date. *)
Definition env_bad_time : Env :=
  Sample.static [(Sample.a_txt, (1, Sample.bad_time_line ++ Sample.nl))] Sample.delivered.

(** What [strptime] raises on it. *)
Definition bad_time_error : exn :=
  ValueError "time data 'yesterday' does not match format '%Y-%m-%dT%H:%M:%SZ'".

(** A truncated candidate on line 1 of [a.txt] and a well-formed one on
    line 2. *)
Definition env_short_then_good : Env :=
  Sample.static
    [(Sample.a_txt, (1, Sample.short_line ++ Sample.nl ++ Sample.good_line ++ Sample.nl))]
    Sample.delivered.

Definition c_txt : Path := "/data/c.txt".

(** The glob returns [b.txt], [a.txt], [c.txt], modified at 2, 1 and 3. *)
Definition env_three : Env :=
  Sample.static [(Sample.b_txt, (2, "")); (Sample.a_txt, (1, "")); (c_txt, (3, ""))]
    Sample.delivered.

(** A directory without files. *)
Definition env_empty : Env := Sample.static [] Sample.delivered.

(** A record whose timestamp has no leading zeros. *)
Definition unpadded_line : string :=
  "mydatameasurement,host1,1,2,3,4,5,6,7,8,9,10,11,12,13,14,15,2025-6-9T1:2:3Z".

(** The scenario's line behind two blanks, and a tab before its line
    terminator. *)
Definition env_indented : Env :=
  Sample.static
    [(Sample.a_txt, (1, "  " ++ Sample.good_line ++ String "009" Sample.nl))]
    Sample.delivered.

Definition archive_txt : Path := "/data/archive.txt".

Definition is_a_directory : exn :=
  OSError "[Errno 21] Is a directory: '/data/archive.txt'".

(** [a.txt] is an empty file and [archive.txt], modified later, is a
    directory: the glob lists both, and only [a.txt] can be opened. *)
Definition env_directory : Env :=
  mk_env
    (fun _ p => String.eqb p Sample.a_txt)
    (fun _ p => if String.eqb p Sample.a_txt then None else Some is_a_directory)
    (fun _ _ => "")
    (fun _ => [Sample.a_txt; archive_txt])
    (fun _ p => inr (if String.eqb p Sample.a_txt then 1 else 2))
    Sample.delivered
    (fun _ => false).

(** [a.txt] holds two comment lines and then the scenario's line;
    [b.txt] is newer and empty. *)
Definition env_comments : Env :=
  Sample.static
    [(Sample.a_txt, (1, "# header" ++ Sample.nl ++ "# units" ++ Sample.nl
                        ++ Sample.good_line ++ Sample.nl));
     (Sample.b_txt, (2, ""))]
    Sample.delivered.

(** [sep.join(l)] *)
Fixpoint join (sep : string) (l : list string) : string :=
  match l with
  | [] => ""
  | [x] => x
  | x :: l' => x ++ sep ++ join sep l'
  end.

(** [str(l)] for a list of strings, as in the text of a
    [CalledProcessError]. *)
Definition str_list (l : list string) : string :=
  "[" ++ join ", " (map PyStr.repr l) ++ "]".

(** What [check=True] makes of the exit status of the process:
    [CalledProcessError] unless it is 0. *)
Definition check_returncode (cmd : list string) (returncode : Z) (stdout stderr : string)
  : option exn :=
  if returncode =? 0 then None
  else Some (CalledProcessError returncode stdout stderr
               ("Command '" ++ str_list cmd ++ "' returned non-zero exit status "
                ++ PyStr.of_Z returncode ++ ".")).

(** The exit status of [curl -f -sS -XPOST url --data-binary ...] when
    the server answers with the HTTP status [code]: [-f] turns an answer of
    400 and above into exit status 22, and every other answer is a
    completed transfer, exit status 0.  That includes the redirects (3xx):
    without [-L] curl does not follow them, and does not count them as
    errors. *)
Definition curl_exit_status (code : Z) : Z := if 400 <=? code then 22 else 0.

(** One well-formed line in [a.txt]; the server answers every post with
    the HTTP status [code] and an empty body. *)
Definition env_answering (code : Z) : Env :=
  Sample.static [(Sample.a_txt, (1, Sample.good_line ++ Sample.nl))]
    (fun _ cmd _ =>
       check_returncode cmd (curl_exit_status code) ""
         (if 400 <=? code
          then "curl: (22) The requested URL returned error: " ++ PyStr.of_Z code
          else "")).

(* ------------------------------------------------------------------ *)
(** ** Further notions and sample file systems                          *)
(* ------------------------------------------------------------------ *)

(** The listing as a function of the time alone. *)
Definition listing (env : Env) (t : Z) : exn + list Path :=
  match stat_all env t (glob_txt env t) with
  | inl e => inl e
  | inr keyed => inr (map snd (sorted_by_key keyed))
  end.

(** The one character that writes a number below ten. *)
Definition one_digit (n : Z) : string := String (digit_char n) "".

(** [t] writes the number [n] with two digits or, below ten, with one. *)
Definition spells (n : Z) (t : string) : Prop :=
  t = two_digits n \/ (n <= 9 /\ t = one_digit n).

(** The day of the month may also be a blank and one digit. *)
Definition spells_day (n : Z) (t : string) : Prop :=
  spells n t \/ (n <= 9 /\ t = " " ++ one_digit n).

(** [s] is the year in four digits, month, day, hour, minute and second
    each spelled as above, with [-], [-], [T] or [t], [:], [:] between
    them and [Z] or [z] at the end. *)
Definition reads_as (s : string) (Y M D h mi sec : Z) : Prop :=
  exists ms ds hs mis ss t z,
    s = four_digits Y ++ "-" ++ ms ++ "-" ++ ds
        ++ String t (hs ++ ":" ++ mis ++ ":" ++ ss ++ String z "")
    /\ spells M ms /\ spells_day D ds
    /\ spells h hs /\ spells mi mis /\ spells sec ss
    /\ (t = "T" \/ t = "t")%char /\ (z = "Z" \/ z = "z")%char.

Fixpoint no_comma (s : string) : bool :=
  match s with
  | EmptyString => true
  | String c s' => negb (Ascii.eqb c ",") && no_comma s'
  end.

(** From time [t0] on nobody interrupts, the file of [c] holds nothing
    behind the cursor, and the listing has no file for [find_next_file] to
    return. *)
Definition quiet (env : Env) (c : Cursor) (t0 : Z) : Prop :=
  forall t, t0 <= t ->
    sleep_interrupted env t = false
    /\ PyStr.take_line (PyStr.drop (pos c) (content env t (file c))) = ""
    /\ exists files, listing env t = inr files /\ find_next_file (file c) files = None.

(** The scenario's line with a first field that goes on behind the
    marker. *)
Definition suffixed_line : string :=
  "mydatameasurement_v2,host1,1,2,3,4,5,6,7,8,9,10,11,12,13,14,15,2025-06-09T21:58:12Z".

Definition env_suffixed : Env :=
  Sample.static [(Sample.a_txt, (1, suffixed_line ++ Sample.nl))] Sample.delivered.

(** What a read that returned [raw] counts: one line, or none at the end
    of the file. *)
Definition lines_read (raw : string) : Z := if PyStr.truthy raw then 1 else 0.

(** The cursor after a read that returned [raw]: behind the characters
    of [raw]. *)
Definition after_read (c : Cursor) (raw : string) : Cursor :=
  mk_cursor (file c) (pos c + String.length raw) (line_number c + lines_read raw).

(** A hundred million seconds, a little over three years: a wait that
    every timer [time.sleep] is built on can hold, so that the sleep does
    take place.  (On Linux [time.sleep] gives up with [OSError] or
    [OverflowError] at about 2^63 nanoseconds, some 9.2e9 seconds, and the
    process exits with status 1.) *)
Definition LONGEST_WAIT : Z := 100000000.

(** What processing the raw line [raw], numbered [n], adds to the trace
    when curl delivers. *)
Definition line_events (sender : Sender) (raw : string) (n : Z) : list event :=
  let line := PyStr.strip raw in
  if field_count_ok line then
    match iso_z_to_ns (timestamp_of line) with
    | inr ns =>
        [Stdout (parsed_notice line n ns);
         Curl (curl_cmd sender (payload line ns)) DEFAULT_TIMEOUT;
         Log (parsed_message line n)]
    | inl _ => []
    end
  else [Log (skip_message line n)].

Fixpoint block_events (sender : Sender) (raws : list string) (n : Z) : list event :=
  match raws with
  | [] => []
  | raw :: rest => (line_events sender raw (n + 1) ++ block_events sender rest (n + 1))%list
  end.

(** At time [t] the file [p] holds, from position [at_pos] on, the raw
    lines [raws] one after the other. *)
Fixpoint holds_lines (env : Env) (t : Z) (p : Path) (at_pos : nat) (raws : list string)
  : Prop :=
  match raws with
  | [] => True
  | raw :: rest =>
      PyStr.take_line (PyStr.drop at_pos (content env t p)) = raw
      /\ holds_lines env t p (at_pos + String.length raw) rest
  end.

(** A raw line that is not empty, is a candidate once stripped, and has
    either the wrong field count or a timestamp that parses. *)
Definition harmless (raw : string) : bool :=
  PyStr.truthy raw && candidate (PyStr.strip raw)
  && (negb (field_count_ok (PyStr.strip raw)) || timestamp_ok (PyStr.strip raw)).

(** [w'] is [w] with events added that all satisfy [P]. *)
Definition adds (P : event -> Prop) (w w' : World) : Prop :=
  exists evs, trace w' = (trace w ++ evs)%list /\ Forall P evs.

(** Whatever world it starts in, [c] only adds events that satisfy [P]. *)
Definition keeps (P : event -> Prop) {A} (c : M A) : Prop :=
  forall w, adds P w (snd (c w)).

(** The only runs of curl are posts of a record to the URL of [sender],
    with the default timeout. *)
Definition posts_records_only (sender : Sender) (ev : event) : Prop :=
  match ev with
  | Curl cmd timeout =>
      timeout = DEFAULT_TIMEOUT
      /\ exists line_protocol,
           cmd = ["curl"; "-f"; "-sS"; "-XPOST"; url sender; "--data-binary"; line_protocol]
           /\ PyStr.startswith line_protocol "mydatameasurement,host=" = true
  | _ => True
  end.

Definition d_txt : Path := "/data/d.txt".

(** The glob returns [b.txt], [a.txt], [d.txt], [c.txt]; [b.txt] and
    [d.txt] were both modified at 2, [a.txt] at 1 and [c.txt] at 3. *)
Definition env_tie : Env :=
  Sample.static
    [(Sample.b_txt, (2, "")); (Sample.a_txt, (1, "")); (d_txt, (2, "")); (c_txt, (3, ""))]
    Sample.delivered.

(** [a.txt] is empty and somebody presses Ctrl-C during the first sleep. *)
Definition env_interrupted : Env :=
  mk_env
    (fun _ p => String.eqb p Sample.a_txt)
    (fun _ _ => None)
    (fun _ _ => "")
    (fun _ => [Sample.a_txt])
    (fun _ _ => inr 1)
    Sample.delivered
    (fun t => t =? 0).

(** One well-formed line in [a.txt]; Ctrl-C arrives while curl posts it. *)
Definition env_interrupted_send : Env :=
  Sample.static [(Sample.a_txt, (1, Sample.good_line ++ Sample.nl))]
    (fun _ _ _ => Some KeyboardInterrupt).

(** The start file [a.txt] is empty and alone. *)
Definition env_one_empty_file : Env :=
  Sample.static [(Sample.a_txt, (1, ""))] Sample.delivered.

(** [a.txt] is empty until time 60 and holds the scenario's line from
    then on; [b.txt] is newer and empty. *)
Definition env_growing : Env :=
  mk_env
    (fun _ _ => true)
    (fun _ _ => None)
    (fun t p => if String.eqb p Sample.a_txt && (60 <=? t)
                then Sample.good_line ++ Sample.nl else "")
    (fun _ => [Sample.a_txt; Sample.b_txt])
    (fun _ p => inr (if String.eqb p Sample.a_txt then 1 else 2))
    Sample.delivered
    (fun _ => false).

(* ------------------------------------------------------------------ *)
(** ** Basic facts about the monad and the trace                        *)
(* ------------------------------------------------------------------ *)

Lemma emit_emits ev w : emit ev w = emits [ev] w.
Proof. reflexivity. Qed.

Lemma emits_emits evs1 evs2 w : emits evs2 (emits evs1 w) = emits (evs1 ++ evs2) w.
Proof. unfold emits; simpl. now rewrite <- app_assoc. Qed.

Lemma emits_nil w : emits [] w = w.
Proof. destruct w; unfold emits; simpl. now rewrite app_nil_r. Qed.

Lemma now_emits evs w : now (emits evs w) = now w.
Proof. reflexivity. Qed.

Lemma trace_emits evs w : trace (emits evs w) = (trace w ++ evs)%list.
Proof. reflexivity. Qed.

Lemma curl_runs_app t1 t2 : curl_runs (t1 ++ t2) = (curl_runs t1 + curl_runs t2)%nat.
Proof. unfold curl_runs. now rewrite filter_app, length_app. Qed.

Lemma iso_z_to_ns_raises_Exception s e :
  iso_z_to_ns s = inl e -> is_Exception e = true.
Proof.
  unfold iso_z_to_ns, PyTime.strptime, PyTime.check_date.
  destruct (PyTime.re_format s) as [|[tm rest] tl]; [intros [= <-]; reflexivity|].
  destruct (PyStr.truthy rest); [intros [= <-]; reflexivity|].
  repeat match goal with
         | |- context [if ?b then _ else _] => destruct b
         end; intros [= <-]; reflexivity.
Qed.

(* ------------------------------------------------------------------ *)
(** ** What [send] and [process_line] do, case by case                  *)
(* ------------------------------------------------------------------ *)

Section Cases.

Variable env : Env.
Variable sender : Sender.

Lemma send_delivered lp timeout w :
  run_curl env (curl_runs (trace w)) (curl_cmd sender lp) timeout = None ->
  send env sender lp timeout w = (inr tt, emits [Curl (curl_cmd sender lp) timeout] w).
Proof.
  intros H. unfold send, try_except, subprocess_run. fold (curl_cmd sender lp).
  now rewrite H.
Qed.

Lemma send_failed lp timeout w e :
  run_curl env (curl_runs (trace w)) (curl_cmd sender lp) timeout = Some e ->
  is_Exception e = true ->
  send env sender lp timeout w =
    (inl e, emits [Curl (curl_cmd sender lp) timeout;
                   Log (curl_notice e timeout); Stdout (curl_notice e timeout)] w).
Proof.
  intros H He. unfold send, try_except, subprocess_run. fold (curl_cmd sender lp).
  rewrite H, He.
  destruct e; try discriminate He; unfold bind, log, print, perform, raise, curl_notice;
    rewrite !emit_emits, !emits_emits; reflexivity.
Qed.

Lemma send_interrupted lp timeout w :
  run_curl env (curl_runs (trace w)) (curl_cmd sender lp) timeout = Some KeyboardInterrupt ->
  send env sender lp timeout w =
    (inl KeyboardInterrupt, emits [Curl (curl_cmd sender lp) timeout] w).
Proof.
  intros H. unfold send, try_except, subprocess_run. fold (curl_cmd sender lp).
  now rewrite H.
Qed.

End Cases.

Section LineCases.

Variable env : Env.
Variable sender : Sender.

Lemma curl_runs_after_print w m :
  curl_runs (trace (emits [Stdout m] w)) = curl_runs (trace w).
Proof.
  rewrite trace_emits, curl_runs_app.
  change (curl_runs [Stdout m]) with 0%nat. lia.
Qed.

Lemma process_line_skip line n w :
  field_count_ok line = false ->
  process_line env line sender n w = (inr tt, emits [Log (skip_message line n)] w).
Proof.
  intros H. unfold field_count_ok in H.
  unfold process_line, bind, try_except, process_line_body.
  rewrite H. reflexivity.
Qed.

Lemma process_line_malformed line n w e :
  field_count_ok line = true ->
  iso_z_to_ns (timestamp_of line) = inl e ->
  process_line env line sender n w =
    (inl e, emits [Log (parse_failed_message line n e)] w).
Proof.
  intros H Ht. unfold field_count_ok in H. unfold timestamp_of in Ht.
  unfold process_line, bind, try_except, process_line_body.
  rewrite H, Ht. simpl. unfold raise.
  rewrite (iso_z_to_ns_raises_Exception _ _ Ht). reflexivity.
Qed.

Lemma process_line_sent line n w ns :
  field_count_ok line = true ->
  iso_z_to_ns (timestamp_of line) = inr ns ->
  run_curl env (curl_runs (trace w)) (curl_cmd sender (payload line ns)) DEFAULT_TIMEOUT = None ->
  process_line env line sender n w =
    (inr tt, emits [Stdout (parsed_notice line n ns);
                    Curl (curl_cmd sender (payload line ns)) DEFAULT_TIMEOUT;
                    Log (parsed_message line n)] w).
Proof.
  intros H Ht Hc. unfold field_count_ok in H. unfold timestamp_of in Ht.
  unfold process_line, process_line_body. rewrite H, Ht. cbn [negb].
  unfold bind, try_except, print, log, perform, ret. rewrite !emit_emits.
  rewrite send_delivered by (rewrite curl_runs_after_print; exact Hc).
  rewrite ?emit_emits, !emits_emits. reflexivity.
Qed.

Lemma process_line_send_failed line n w ns e :
  field_count_ok line = true ->
  iso_z_to_ns (timestamp_of line) = inr ns ->
  run_curl env (curl_runs (trace w)) (curl_cmd sender (payload line ns)) DEFAULT_TIMEOUT = Some e ->
  is_Exception e = true ->
  process_line env line sender n w =
    (inl e, emits [Stdout (parsed_notice line n ns);
                   Curl (curl_cmd sender (payload line ns)) DEFAULT_TIMEOUT;
                   Log (curl_notice e DEFAULT_TIMEOUT);
                   Stdout (curl_notice e DEFAULT_TIMEOUT);
                   Log (parse_failed_message line n e)] w).
Proof.
  intros H Ht Hc He. unfold field_count_ok in H. unfold timestamp_of in Ht.
  unfold process_line, process_line_body. rewrite H, Ht. cbn [negb].
  unfold bind, try_except, print, log, perform, ret, raise. rewrite !emit_emits.
  rewrite (send_failed env sender _ _ _ e)
    by (rewrite ?curl_runs_after_print; assumption).
  rewrite He, ?emit_emits, !emits_emits. reflexivity.
Qed.

Lemma process_line_send_interrupted line n w ns :
  field_count_ok line = true ->
  iso_z_to_ns (timestamp_of line) = inr ns ->
  run_curl env (curl_runs (trace w)) (curl_cmd sender (payload line ns)) DEFAULT_TIMEOUT
    = Some KeyboardInterrupt ->
  process_line env line sender n w =
    (inl KeyboardInterrupt,
     emits [Stdout (parsed_notice line n ns);
            Curl (curl_cmd sender (payload line ns)) DEFAULT_TIMEOUT] w).
Proof.
  intros H Ht Hc. unfold field_count_ok in H. unfold timestamp_of in Ht.
  unfold process_line, process_line_body. rewrite H, Ht. cbn [negb].
  unfold bind, try_except, print, log, perform, ret, raise. rewrite !emit_emits.
  rewrite send_interrupted by (rewrite curl_runs_after_print; exact Hc).
  cbn [is_Exception]. rewrite ?emit_emits, ?emits_emits. reflexivity.
Qed.

End LineCases.

(* ------------------------------------------------------------------ *)
(** ** One step of the engine, and how exceptions leave it              *)
(* ------------------------------------------------------------------ *)

Section EngineCases.

Variable env : Env.
Variable sender : Sender.

Lemma read_eof c w :
  next_raw env c w = "" ->
  read_and_process env sender c w = (inr (false, c), w).
Proof.
  intros H. unfold read_and_process, bind, readline. fold (next_raw env c w).
  now rewrite H.
Qed.

Lemma read_non_candidate c w :
  PyStr.truthy (next_raw env c w) = true ->
  candidate (PyStr.strip (next_raw env c w)) = false ->
  read_and_process env sender c w = (inr (false, advance c (next_raw env c w)), w).
Proof.
  intros H Hc. unfold read_and_process, bind, readline. fold (next_raw env c w).
  unfold candidate in Hc. now rewrite H, Hc.
Qed.

Lemma read_candidate c w :
  PyStr.truthy (next_raw env c w) = true ->
  candidate (PyStr.strip (next_raw env c w)) = true ->
  read_and_process env sender c w =
    match process_line env (PyStr.strip (next_raw env c w)) sender (line_number c + 1) w with
    | (inl e, w') => (inl e, w')
    | (inr _, w') => (inr (true, advance c (next_raw env c w)), w')
    end.
Proof.
  intros H Hc. unfold read_and_process, bind, readline. fold (next_raw env c w).
  unfold candidate in Hc. rewrite H, Hc. cbn [line_number].
  destruct (process_line _ _ _ _ _) as [[e|[]] w']; reflexivity.
Qed.

Lemma step_candidate wait_time c w :
  PyStr.truthy (next_raw env c w) = true ->
  candidate (PyStr.strip (next_raw env c w)) = true ->
  engine_step env sender wait_time (InLoop c) w =
    match process_line env (PyStr.strip (next_raw env c w)) sender (line_number c + 1) w with
    | (inl e, w') => (inl e, w')
    | (inr _, w') => (inr (InLoop (advance c (next_raw env c w))), w')
    end.
Proof.
  intros H Hc. unfold engine_step, inner_iteration, bind.
  rewrite read_candidate by assumption.
  destruct (process_line _ _ _ _ _) as [[e|[]] w']; reflexivity.
Qed.

Lemma run_raise fuel wait_time st w e w' :
  engine_step env sender wait_time st w = (inl e, w') ->
  run env (S fuel) sender wait_time st w = (inl e, w').
Proof. intros H. cbn [run]. unfold bind. now rewrite H. Qed.

Lemma run_step fuel wait_time st w st' w' :
  engine_step env sender wait_time st w = (inr st', w') ->
  run env (S fuel) sender wait_time st w = run env fuel sender wait_time st' w'.
Proof. intros H. cbn [run]. unfold bind. now rewrite H. Qed.

Lemma guarded_fatal fuel wait_time st w e w' :
  run env fuel sender wait_time st w = (inl e, w') ->
  is_Exception e = true ->
  guarded env fuel sender wait_time st w =
    (Exited 1, emits [Log ("[FATAL] " ++ str_exn e)] w').
Proof.
  intros H He. unfold guarded. rewrite H.
  destruct e; try discriminate He; reflexivity.
Qed.

Lemma guarded_interrupt fuel wait_time st w w' :
  run env fuel sender wait_time st w = (inl KeyboardInterrupt, w') ->
  guarded env fuel sender wait_time st w =
    (Exited 0, emits [Log "[INFO] Interrupted by user.";
                      Stdout (String PyStr.newline "Interrupted by user.")] w').
Proof.
  intros H. unfold guarded. rewrite H.
  unfold bind, log, print, perform. cbn [snd]. now rewrite !emit_emits, emits_emits.
Qed.

Lemma guarded_running fuel wait_time st w st' w' :
  run env fuel sender wait_time st w = (inr st', w') ->
  guarded env fuel sender wait_time st w = (Running st', w').
Proof. intros H. unfold guarded. now rewrite H. Qed.

End EngineCases.

(* ------------------------------------------------------------------ *)
(** ** Which line a pass of the internal loop hands to [process_line]   *)
(* ------------------------------------------------------------------ *)

Lemma sleep_returns env wait_time w :
  0 <= wait_time ->
  sleep_interrupted env (now w) = false ->
  sleep env wait_time w = (inr tt, slept wait_time w).
Proof.
  intros Hw Hi. unfold sleep. rewrite Hi.
  destruct (Z.ltb_spec wait_time 0); [lia | reflexivity].
Qed.

Lemma step_hands_over env sender wait_time c w line n c' w0 :
  hands_over env sender wait_time c w line n c' w0 ->
  engine_step env sender wait_time (InLoop c) w =
    match process_line env line sender n w0 with
    | (inl e, w') => (inl e, w')
    | (inr _, w') => (inr (InLoop c'), w')
    end.
Proof.
  intros [Ht Hc | c1 H1 Hw Hi Ht Hc].
  - now apply step_candidate.
  - unfold engine_step, inner_iteration, retry_after_wait, bind. rewrite H1. cbn [fst snd].
    rewrite sleep_returns by assumption.
    rewrite read_candidate by assumption.
    destruct (process_line _ _ _ _ _) as [[e|[]] w']; reflexivity.
Qed.

(** An exception raised by [process_line] ends the run with status 1. *)
Lemma raised_in_line_is_fatal env sender wait_time fuel c w line n c' w0 e w' :
  hands_over env sender wait_time c w line n c' w0 ->
  process_line env line sender n w0 = (inl e, w') ->
  is_Exception e = true ->
  guarded env (S fuel) sender wait_time (InLoop c) w =
    (Exited 1, emits [Log ("[FATAL] " ++ str_exn e)] w').
Proof.
  intros Hh Hp He. apply guarded_fatal; [|assumption].
  apply run_raise. rewrite (step_hands_over _ _ _ _ _ _ _ _ _ Hh), Hp. reflexivity.
Qed.

(** *** Substrings *)

Lemma startswith_app p s : PyStr.startswith (p ++ s) p = true.
Proof.
  induction p as [|a p IH]; [destruct s; reflexivity|].
  simpl. now rewrite Ascii.eqb_refl, IH.
Qed.

Lemma contains_prefix s x : PyStr.startswith s x = true -> PyStr.contains s x = true.
Proof. intros H. destruct s; cbn [PyStr.contains]; rewrite H; reflexivity. Qed.

Lemma contains_app_r a s x : PyStr.contains s x = true -> PyStr.contains (a ++ s) x = true.
Proof.
  intros H. induction a as [|ch a IH]; [exact H|].
  cbn [append PyStr.contains]. rewrite IH. apply orb_true_r.
Qed.

Lemma contains_here a x s : PyStr.contains (a ++ x ++ s) x = true.
Proof. apply contains_app_r, contains_prefix, startswith_app. Qed.

(* ------------------------------------------------------------------ *)
(** ** Runs of [main]                                                   *)
(* ------------------------------------------------------------------ *)

Lemma run_add env sender wait k fuel st w :
  run env (k + fuel) sender wait st w =
    match run env k sender wait st w with
    | (inl e, w') => (inl e, w')
    | (inr st', w') => run env fuel sender wait st' w'
    end.
Proof.
  revert st w. induction k as [|k IH]; intros st w; [reflexivity|].
  cbn [Nat.add run]. unfold bind.
  destruct (engine_step env sender wait st w) as [[e|st'] w']; [reflexivity|].
  apply IH.
Qed.

Lemma main_resume env wait start w_init k st w fuel :
  reaches env wait start w_init k st w ->
  main env (k + fuel) start wait w_init = guarded env fuel the_sender wait st w.
Proof.
  intros [Hf Hr]. unfold main. rewrite Hf. cbn [negb].
  unfold guarded. fold the_sender. now rewrite run_add, Hr.
Qed.

Lemma reaches_start env wait start w_init :
  is_file env (now w_init) start = true ->
  reaches env wait start w_init 0 (AtOpen start) w_init.
Proof. intros H. split; [exact H | reflexivity]. Qed.

(* ------------------------------------------------------------------ *)
(** ** Transport failures (C3)                                          *)
(* ------------------------------------------------------------------ *)

Lemma send_runs_curl_once env sender lp timeout w :
  curl_runs (trace (snd (send env sender lp timeout w))) = S (curl_runs (trace w)).
Proof.
  destruct (run_curl env (curl_runs (trace w)) (curl_cmd sender lp) timeout) as [e|] eqn:H.
  - destruct (is_Exception e) eqn:He.
    + rewrite (send_failed _ _ _ _ _ _ H He). cbn [snd].
      rewrite trace_emits, curl_runs_app. cbn. lia.
    + destruct e; try discriminate He.
      rewrite (send_interrupted _ _ _ _ _ H). cbn [snd].
      rewrite trace_emits, curl_runs_app. cbn. lia.
  - rewrite (send_delivered _ _ _ _ _ H). cbn [snd].
    rewrite trace_emits, curl_runs_app. cbn. lia.
Qed.

(** C3 (amended).  Every call of [send] runs curl exactly once, whatever
    the outcome (no retry).  When that run fails with an exception [e] -
    curl exits with a non-zero status because the endpoint cannot be
    reached or, under [-f], answers with a status of 400 or above, the
    timeout (10 for the call of line 156) expires, or anything else of
    class [Exception] - [send] raises [e]; and when this happens for a
    well-formed candidate line at any point [k] of a run of [main], the run
    ends with exit status 1, having run curl once for that line.  When curl
    exits with status 0 - as it does for every answer below 400, the
    redirects included - [send] returns and has done nothing but run
    curl. *)
Theorem C3_send_failure_is_fatal (env : Env) :
  (forall sender lp timeout w,
      curl_runs (trace (snd (send env sender lp timeout w))) = S (curl_runs (trace w)))
  /\
  (forall sender lp timeout w e,
      run_curl env (curl_runs (trace w)) (curl_cmd sender lp) timeout = Some e ->
      is_Exception e = true ->
      fst (send env sender lp timeout w) = inl e)
  /\
  (forall wait start w_init k c w line n c' w0 ns e fuel,
      reaches env wait start w_init k (InLoop c) w ->
      hands_over env the_sender wait c w line n c' w0 ->
      field_count_ok line = true ->
      iso_z_to_ns (timestamp_of line) = inr ns ->
      run_curl env (curl_runs (trace w0)) (curl_cmd the_sender (payload line ns))
        DEFAULT_TIMEOUT = Some e ->
      is_Exception e = true ->
      main env (k + S fuel) start wait w_init =
        (Exited 1,
         emits [Stdout (parsed_notice line n ns);
                Curl (curl_cmd the_sender (payload line ns)) DEFAULT_TIMEOUT;
                Log (curl_notice e DEFAULT_TIMEOUT);
                Stdout (curl_notice e DEFAULT_TIMEOUT);
                Log (parse_failed_message line n e);
                Log ("[FATAL] " ++ str_exn e)] w0))
  /\
  (forall sender lp timeout w,
      run_curl env (curl_runs (trace w)) (curl_cmd sender lp) timeout = None ->
      send env sender lp timeout w = (inr tt, emits [Curl (curl_cmd sender lp) timeout] w)).
Proof.
  split; [|split; [|split]].
  - intros. apply send_runs_curl_once.
  - intros sender lp timeout w e H He. now rewrite (send_failed _ _ _ _ _ _ H He).
  - intros wait start w_init k c w line n c' w0 ns e fuel Hr Hh Hf Ht Hc He.
    rewrite (main_resume _ _ _ _ _ _ _ _ Hr).
    rewrite (raised_in_line_is_fatal _ _ _ _ _ _ _ _ _ _ e _ Hh
               (process_line_send_failed _ _ _ _ _ _ _ Hf Ht Hc He) He).
    now rewrite emits_emits.
  - intros sender lp timeout w H. now apply send_delivered.
Qed.

(** The first line of the start file is well formed and the server answers
    404: the process exits with status 1 after a single run of curl. *)
Lemma C3_witness :
  fst (main env_rejecting 2 Sample.a_txt 60 world0) = Exited 1 /\
  curl_runs (trace (snd (main env_rejecting 2 Sample.a_txt 60 world0))) = 1%nat.
Proof.
  pose proof (proj1 (proj2 (proj2 (C3_send_failure_is_fatal env_rejecting)))
                60 Sample.a_txt world0 1%nat (Sample.at_start Sample.a_txt)
                (Sample.opened Sample.a_txt) Sample.good_line 1
                (advance (Sample.at_start Sample.a_txt) (Sample.good_line ++ Sample.nl))
                (Sample.opened Sample.a_txt) 1749506292000000000 Sample.http_404 0%nat) as H.
  cbn [Nat.add] in H. rewrite H.
  - split; reflexivity.
  - split; reflexivity.
  - exact (at_first_read env_rejecting the_sender 60 (Sample.at_start Sample.a_txt)
             (Sample.opened Sample.a_txt) eq_refl eq_refl).
  - reflexivity.
  - reflexivity.
  - reflexivity.
  - reflexivity.
Defined.

(** The server answers the post of the scenario's line with 302 Found,
    which is no 2xx answer.  To [curl -f] it is no error either: curl exits
    with status 0, [send] returns, the line is logged as parsed and the
    process goes on - it is at the head of its loop after two steps and,
    the file having no more lines, still there after five.  With the
    answer 404 in its place the process exits with status 1. *)
Lemma C3_counterexample :
  curl_exit_status 302 = 0
  /\ main (env_answering 302) 2 Sample.a_txt 60 world0 =
       (Running (InLoop (mk_cursor Sample.a_txt 81 1)),
        emits [Stdout (parsed_notice Sample.good_line 1 1749506292000000000);
               Curl (curl_cmd the_sender Sample.good_payload) DEFAULT_TIMEOUT;
               Log (parsed_message Sample.good_line 1)] (Sample.opened Sample.a_txt))
  /\ fst (main (env_answering 302) 5 Sample.a_txt 60 world0)
     = Running (InLoop (mk_cursor Sample.a_txt 81 1))
  /\ fst (main (env_answering 404) 2 Sample.a_txt 60 world0) = Exited 1.
Proof. repeat split; reflexivity. Qed.

(* ------------------------------------------------------------------ *)
(** ** Malformed timestamps (C4)                                        *)
(* ------------------------------------------------------------------ *)

(** C4.  When a run of [main] hands [process_line] a candidate line that
    splits into eighteen fields and whose last field [strptime] rejects,
    the run ends with exit status 1; the log then holds, before the
    [[FATAL]] entry, one [[ERROR]] entry that contains the line and its
    line number. *)
Theorem C4_malformed_timestamp_is_fatal
  (env : Env) (wait : Z) (start : Path) (w_init : World) (k : nat)
  (c : Cursor) (w : World) (line : string) (n : Z) (c' : Cursor) (w0 : World)
  (e : exn) (fuel : nat) :
  reaches env wait start w_init k (InLoop c) w ->
  hands_over env the_sender wait c w line n c' w0 ->
  field_count_ok line = true ->
  iso_z_to_ns (timestamp_of line) = inl e ->
  main env (k + S fuel) start wait w_init =
    (Exited 1,
     emits [Log (parse_failed_message line n e); Log ("[FATAL] " ++ str_exn e)] w0)
  /\ PyStr.contains (parse_failed_message line n e) line = true
  /\ PyStr.contains (parse_failed_message line n e) (PyStr.of_Z n) = true.
Proof.
  intros Hr Hh Hf Ht. split; [|split].
  - rewrite (main_resume _ _ _ _ _ _ _ _ Hr).
    rewrite (raised_in_line_is_fatal _ _ _ _ _ _ _ _ _ _ e _ Hh
               (process_line_malformed _ _ _ _ _ _ Hf Ht)
               (iso_z_to_ns_raises_Exception _ _ Ht)).
    now rewrite emits_emits.
  - unfold parse_failed_message.
    apply contains_app_r, contains_app_r, contains_here.
  - unfold parse_failed_message. apply contains_here.
Qed.

(** The first line of the start file carries the timestamp [yesterday]. *)
Lemma C4_witness :
  main env_bad_time 2 Sample.a_txt 60 world0 =
    (Exited 1,
     emits [Log (parse_failed_message Sample.bad_time_line 1 bad_time_error);
            Log ("[FATAL] " ++ str_exn bad_time_error)] (Sample.opened Sample.a_txt)).
Proof.
  refine (proj1 (C4_malformed_timestamp_is_fatal env_bad_time 60 Sample.a_txt world0 1%nat
                   (Sample.at_start Sample.a_txt) (Sample.opened Sample.a_txt)
                   Sample.bad_time_line 1
                   (advance (Sample.at_start Sample.a_txt) (Sample.bad_time_line ++ Sample.nl))
                   (Sample.opened Sample.a_txt) bad_time_error 0%nat _ _ _ _)).
  - split; reflexivity.
  - exact (at_first_read env_bad_time the_sender 60 (Sample.at_start Sample.a_txt)
             (Sample.opened Sample.a_txt) eq_refl eq_refl).
  - reflexivity.
  - reflexivity.
Defined.

(* ------------------------------------------------------------------ *)
(** ** Lines with the wrong number of fields (C5)                       *)
(* ------------------------------------------------------------------ *)






(* ------------------------------------------------------------------ *)
(** ** The directory scanner (C7)                                       *)
(* ------------------------------------------------------------------ *)

Lemma index_absent current files :
  ~ In current files -> index current files = None.
Proof.
  induction files as [|f files IH]; intros H; [reflexivity|].
  cbn [index]. destruct (String.eqb_spec f current) as [->|_].
  - exfalso. apply H. now left.
  - rewrite IH; [reflexivity|]. intros Hin. apply H. now right.
Qed.

Lemma index_first current before rest :
  ~ In current before ->
  index current (before ++ current :: rest) = Some (List.length before).
Proof.
  induction before as [|f before IH]; intros H; cbn [index app List.length].
  - now rewrite String.eqb_refl.
  - destruct (String.eqb_spec f current) as [->|_].
    + exfalso. apply H. now left.
    + rewrite IH; [reflexivity|]. intros Hin. apply H. now right.
Qed.

Lemma last_or_none_snoc before (lst : Path) : last_or_none (before ++ [lst]) = Some lst.
Proof.
  destruct before as [|f before]; [reflexivity|].
  cbn [app last_or_none]. f_equal. apply last_last.
Qed.

Lemma find_next_file_successor current before rest :
  ~ In current before ->
  find_next_file current (before ++ current :: rest) = hd_error rest.
Proof.
  intros H. unfold find_next_file. rewrite (index_first _ _ _ H).
  rewrite length_app. cbn [List.length].
  destruct rest as [|nxt after].
  - cbn [List.length hd_error].
    destruct (Nat.ltb_spec (List.length before + 1) (List.length before + 1)); [lia|reflexivity].
  - cbn [List.length hd_error].
    destruct (Nat.ltb_spec (List.length before + 1) (List.length before + S (S (List.length after))));
      [|lia].
    rewrite nth_error_app2 by lia.
    replace (List.length before + 1 - List.length before)%nat with 1%nat by lia.
    reflexivity.
Qed.

Lemma NoDup_not_before (current : Path) before rest :
  NoDup (before ++ current :: rest) -> ~ In current before.
Proof.
  intros H Hin. apply NoDup_remove_2 in H. apply H. apply in_or_app. now left.
Qed.

(** *** The listing is in ascending order of modification time *)

Lemma insert_by_key_perm x l : Permutation (insert_by_key x l) (x :: l).
Proof.
  induction l as [|y l IH]; cbn [insert_by_key]; [reflexivity|].
  destruct (fst x <=? fst y); [reflexivity|].
  rewrite IH. apply perm_swap.
Qed.

Lemma sorted_by_key_perm l : Permutation (sorted_by_key l) l.
Proof.
  induction l as [|x l IH]; [reflexivity|].
  cbn [sorted_by_key fold_right]. fold (sorted_by_key l).
  rewrite insert_by_key_perm. now constructor.
Qed.

Lemma insert_by_key_sorted x l :
  StronglySorted key_le l -> StronglySorted key_le (insert_by_key x l).
Proof.
  induction 1 as [|y l Hs IH Hall]; cbn [insert_by_key].
  - repeat constructor.
  - destruct (Z.leb_spec (fst x) (fst y)) as [Hle|Hgt].
    + constructor; [now constructor|].
      constructor; [exact Hle|].
      eapply Forall_impl; [|exact Hall]. unfold key_le. intros; lia.
    + constructor; [exact IH|].
      eapply Permutation_Forall; [symmetry; apply insert_by_key_perm|].
      constructor; [unfold key_le; lia | exact Hall].
Qed.

Lemma sorted_by_key_sorted l : StronglySorted key_le (sorted_by_key l).
Proof.
  induction l as [|x l IH]; [constructor|].
  cbn [sorted_by_key fold_right]. now apply insert_by_key_sorted.
Qed.

Lemma stat_all_keys env t ps l :
  stat_all env t ps = inr l -> l = map (fun p => (mtime_of env t p, p)) ps.
Proof.
  revert l. induction ps as [|p ps IH]; intros l; cbn [stat_all map].
  - now intros [= <-].
  - unfold mtime_of. destruct (st_mtime env t p) as [e|k]; [discriminate|].
    destruct (stat_all env t ps) as [e|l']; [discriminate|].
    intros [= <-]. now rewrite (IH l' eq_refl).
Qed.

Lemma listing_is_sorted_glob env w files w' :
  list_txt_files env w = (inr files, w') ->
  Permutation files (glob_txt env (now w)) /\
  StronglySorted (fun p q => mtime_of env (now w) p <= mtime_of env (now w) q) files.
Proof.
  unfold list_txt_files.
  destruct (stat_all env (now w) (glob_txt env (now w))) as [e|keyed] eqn:Hs; [discriminate|].
  intros [= <- _]. apply stat_all_keys in Hs.
  split.
  - rewrite sorted_by_key_perm, Hs, map_map. cbn [snd]. now rewrite map_id.
  - pose proof (sorted_by_key_sorted keyed) as Hsorted.
    assert (Hk : Forall (fun x => fst x = mtime_of env (now w) (snd x)) (sorted_by_key keyed)).
    { eapply Permutation_Forall; [symmetry; apply sorted_by_key_perm|].
      rewrite Hs. apply Forall_forall. intros x Hin.
      apply in_map_iff in Hin. destruct Hin as [p [<- _]]. reflexivity. }
    induction Hsorted as [|x l Hsl IH Hall]; cbn [map]; constructor.
    + apply IH. now inversion Hk.
    + inversion Hk as [|? ? Hx Hl]; subst.
      apply Forall_map. rewrite Forall_forall in *.
      intros y Hy. specialize (Hall y Hy). unfold key_le in Hall.
      rewrite <- Hx, <- (Hl y Hy). exact Hall.
Qed.

(** C7.  For a listing [files] made by [list_txt_files] from a glob
    without repetitions: it is in ascending order of modification time;
    [find_next_file] returns the element right behind [current]; none when
    [current] is the last element; and, when [current] does not occur in
    the listing, the last element (none for the empty listing, which has no
    last element). *)
Theorem C7_find_next_file
  (env : Env) (w : World) (files : list Path) (w' : World) (current : Path) :
  list_txt_files env w = (inr files, w') ->
  NoDup (glob_txt env (now w)) ->
  StronglySorted (fun p q => mtime_of env (now w) p <= mtime_of env (now w) q) files
  /\ (forall before nxt after,
         files = (before ++ current :: nxt :: after)%list ->
         find_next_file current files = Some nxt)
  /\ (forall before,
         files = (before ++ [current])%list -> find_next_file current files = None)
  /\ (~ In current files ->
      (forall before lst, files = (before ++ [lst])%list ->
                          find_next_file current files = Some lst)
      /\ (files = [] -> find_next_file current files = None)).
Proof.
  intros Hl Hnd. destruct (listing_is_sorted_glob _ _ _ _ Hl) as [Hperm Hsorted].
  assert (Hnd' : NoDup files)
    by (eapply Permutation_NoDup; [symmetry; exact Hperm | exact Hnd]).
  split; [exact Hsorted|]. split; [|split].
  - intros before nxt after ->.
    now rewrite find_next_file_successor by (eapply NoDup_not_before; exact Hnd').
  - intros before ->.
    now rewrite find_next_file_successor by (eapply NoDup_not_before; exact Hnd').
  - intros Hout. unfold find_next_file. rewrite (index_absent _ _ Hout). split.
    + intros before lst ->. apply last_or_none_snoc.
    + now intros ->.
Qed.

Lemma C7_witness :
  find_next_file Sample.a_txt [Sample.a_txt; Sample.b_txt; c_txt] = Some Sample.b_txt.
Proof.
  refine (proj1 (proj2 (C7_find_next_file env_three world0
                          [Sample.a_txt; Sample.b_txt; c_txt]
                          (emit ListDir world0) Sample.a_txt _ _))
            [] Sample.b_txt [c_txt] _).
  - reflexivity.
  - repeat constructor; cbn; intuition discriminate.
  - reflexivity.
Defined.

(* ------------------------------------------------------------------ *)
(** ** The record codec (C8)                                            *)
(* ------------------------------------------------------------------ *)

Lemma append_assoc (a b c : string) : (a ++ b) ++ c = a ++ (b ++ c).
Proof. induction a as [|ch a IH]; [reflexivity|]. cbn [append]. now rewrite IH. Qed.

(** *** Timestamps in the exact form *)

Lemma digit_val_char d : 0 <= d <= 9 -> PyTime.digit_val (digit_char d) = Some d.
Proof.
  intros H.
  assert (d = 0 \/ d = 1 \/ d = 2 \/ d = 3 \/ d = 4 \/ d = 5 \/ d = 6 \/ d = 7
          \/ d = 8 \/ d = 9) as Hd by lia.
  repeat (destruct Hd as [-> | Hd]; [reflexivity|]). subst. reflexivity.
Qed.

Lemma cls_digit lo hi d rest :
  0 <= d <= 9 ->
  PyTime.cls lo hi (String (digit_char d) rest) =
    if (lo <=? d) && (d <=? hi) then [(d, rest)] else [].
Proof. intros H. unfold PyTime.cls. now rewrite digit_val_char. Qed.

Lemma cls2_digits lo1 hi1 lo2 hi2 a b rest :
  0 <= a <= 9 -> 0 <= b <= 9 ->
  PyTime.cls2 lo1 hi1 lo2 hi2 (String (digit_char a) (String (digit_char b) rest)) =
    if ((lo1 <=? a) && (a <=? hi1)) && ((lo2 <=? b) && (b <=? hi2))
    then [(10 * a + b, rest)] else [].
Proof.
  intros Ha Hb. unfold PyTime.cls2, PyTime.mbind, PyTime.mret.
  rewrite cls_digit by assumption.
  destruct ((lo1 <=? a) && (a <=? hi1)); [|reflexivity].
  cbn [flat_map fst snd]. rewrite cls_digit by assumption.
  destruct ((lo2 <=? b) && (b <=? hi2)); reflexivity.
Qed.

Ltac zlia := Z.div_mod_to_equations; lia.

Lemma cls2_two_digits lo1 hi1 lo2 hi2 n rest :
  0 <= n <= 99 ->
  PyTime.cls2 lo1 hi1 lo2 hi2 (two_digits n ++ rest) =
    if ((lo1 <=? n / 10) && (n / 10 <=? hi1)) && ((lo2 <=? n mod 10) && (n mod 10 <=? hi2))
    then [(n, rest)] else [].
Proof.
  intros H. unfold two_digits. cbn [append].
  rewrite cls2_digits by zlia.
  now rewrite <- Z.div_mod by lia.
Qed.

Lemma first_is_bind {A B} (m : PyTime.matcher A) (f : A -> PyTime.matcher B) s a r b r' :
  first_is (m s) a r -> first_is (f a r) b r' -> first_is (PyTime.mbind m f s) b r'.
Proof.
  intros [tl H] [tl' H']. unfold PyTime.mbind. rewrite H. cbn [flat_map fst snd].
  rewrite H'. eexists. reflexivity.
Qed.

Lemma first_is_lit c rest : first_is (PyTime.lit c (String c rest)) tt rest.
Proof. unfold PyTime.lit. rewrite Ascii.eqb_refl. eexists. reflexivity. Qed.

Ltac decide_ranges :=
  repeat (match goal with
          | |- context [Z.leb ?x ?y] => destruct (Z.leb_spec x y)
          end; try zlia);
  cbn [andb app]; eexists; reflexivity.

Lemma re_Y_exact Y rest :
  0 <= Y <= 9999 ->
  first_is (PyTime.re_Y (four_digits Y ++ rest)) Y rest.
Proof.
  intros H. unfold four_digits, PyTime.re_Y. rewrite append_assoc.
  eapply first_is_bind.
  - rewrite cls2_two_digits by zlia. decide_ranges.
  - eapply first_is_bind.
    + rewrite cls2_two_digits by zlia. decide_ranges.
    + unfold PyTime.mret. replace (100 * (Y / 100) + Y mod 100) with Y by zlia.
      eexists. reflexivity.
Qed.

Lemma re_m_exact M rest :
  1 <= M <= 12 -> first_is (PyTime.re_m (two_digits M ++ rest)) M rest.
Proof.
  intros H. unfold PyTime.re_m, PyTime.alt.
  rewrite !cls2_two_digits by lia. decide_ranges.
Qed.

Lemma re_d_exact D rest :
  1 <= D <= 31 -> first_is (PyTime.re_d (two_digits D ++ rest)) D rest.
Proof.
  intros H. unfold PyTime.re_d, PyTime.alt.
  rewrite !cls2_two_digits by lia. decide_ranges.
Qed.

Lemma re_H_exact h rest :
  0 <= h <= 23 -> first_is (PyTime.re_H (two_digits h ++ rest)) h rest.
Proof.
  intros H. unfold PyTime.re_H, PyTime.alt.
  rewrite !cls2_two_digits by lia. decide_ranges.
Qed.

Lemma re_M_exact mi rest :
  0 <= mi <= 59 -> first_is (PyTime.re_M (two_digits mi ++ rest)) mi rest.
Proof.
  intros H. unfold PyTime.re_M, PyTime.alt.
  rewrite !cls2_two_digits by lia. decide_ranges.
Qed.

Lemma re_S_exact s rest :
  0 <= s <= 61 -> first_is (PyTime.re_S (two_digits s ++ rest)) s rest.
Proof.
  intros H. unfold PyTime.re_S, PyTime.alt.
  rewrite !cls2_two_digits by lia. decide_ranges.
Qed.

Lemma re_format_exact Y M D h mi s :
  0 <= Y <= 9999 -> 1 <= M <= 12 -> 1 <= D <= 31 ->
  0 <= h <= 23 -> 0 <= mi <= 59 -> 0 <= s <= 61 ->
  first_is (PyTime.re_format (exact_form Y M D h mi s)) (PyTime.mk_tm Y M D h mi s) "".
Proof.
  intros HY HM HD Hh Hmi Hs. unfold exact_form, PyTime.re_format.
  eapply first_is_bind; [now apply re_Y_exact|].
  eapply first_is_bind; [apply first_is_lit|].
  eapply first_is_bind; [now apply re_m_exact|].
  eapply first_is_bind; [apply first_is_lit|].
  eapply first_is_bind; [now apply re_d_exact|].
  eapply first_is_bind; [apply first_is_lit|].
  eapply first_is_bind; [now apply re_H_exact|].
  eapply first_is_bind; [apply first_is_lit|].
  eapply first_is_bind; [now apply re_M_exact|].
  eapply first_is_bind; [apply first_is_lit|].
  eapply first_is_bind; [now apply (re_S_exact s "Z")|].
  eapply first_is_bind; [apply first_is_lit|].
  eexists. reflexivity.
Qed.

Lemma days_in_month_le_31 Y M : PyTime.days_in_month Y M <= 31.
Proof.
  unfold PyTime.days_in_month.
  destruct ((M =? 2) && PyTime.is_leap Y); [lia|].
  destruct (Z.to_nat M) as [|[|[|[|[|[|[|[|[|[|[|[|[|[|k]]]]]]]]]]]]]]; cbn; try lia.
Qed.

Lemma iso_z_to_ns_exact Y M D h mi s :
  1 <= Y <= 9999 -> 1 <= M <= 12 -> 1 <= D <= PyTime.days_in_month Y M ->
  0 <= h <= 23 -> 0 <= mi <= 59 -> 0 <= s <= 59 ->
  iso_z_to_ns (exact_form Y M D h mi s) = inr (epoch_seconds Y M D h mi s * 1000000000).
Proof.
  intros HY HM HD Hh Hmi Hs.
  pose proof (days_in_month_le_31 Y M) as H31.
  destruct (re_format_exact Y M D h mi s) as [tl Hre]; try lia.
  unfold iso_z_to_ns, PyTime.strptime. rewrite Hre. cbn [PyStr.truthy].
  unfold PyTime.check_date.
  cbn [PyTime.tm_year PyTime.tm_mon PyTime.tm_mday].
  repeat match goal with
         | |- context [Z.leb ?x ?y] => destruct (Z.leb_spec x y); try lia
         end.
  cbn [andb negb]. f_equal.
  unfold PyTime.timegm, epoch_seconds, PyTime.EPOCH_ORD, PyTime.ymd2ord.
  cbn [PyTime.tm_year PyTime.tm_mon PyTime.tm_mday PyTime.tm_hour PyTime.tm_min PyTime.tm_sec].
  ring.
Qed.

(** *** The serialized record *)

Lemma payload_is_spec_line_protocol line m host
  t1 t2 t3 t4 pwr1 pwr2 pwr3 pwr4 ledamp ledwidth threshold v1 v2 v3 v4 ts ns :
  PyStr.split "," line =
    [m; host; t1; t2; t3; t4; pwr1; pwr2; pwr3; pwr4; ledamp; ledwidth; threshold;
     v1; v2; v3; v4; ts] ->
  payload line ns =
    spec_line_protocol host t1 t2 t3 t4 pwr1 pwr2 pwr3 pwr4 ledamp ledwidth threshold
      v1 v2 v3 v4 ns.
Proof.
  intros H. unfold payload, line_protocol_of, fields_of, item, spec_line_protocol, MEASUREMENT.
  rewrite H. cbn [nth]. rewrite !append_assoc. reflexivity.
Qed.

(** C8 (amended).  A timestamp in the exact form [YYYY-MM-DDTHH:MM:SSZ]
    that names an existing date and time is accepted and converted to the
    nanoseconds from the epoch to that UTC time; and for every line that
    splits into eighteen fields whose last one [iso_z_to_ns] accepts,
    [process_line] hands curl the string
    [mydatameasurement,host=<host> T1=<v1>,...,V4=<v15> <ns>], the values
    unescaped. *)
Theorem C8_record_is_serialized (env : Env) (sender : Sender) :
  (forall Y M D h mi s,
      1 <= Y <= 9999 -> 1 <= M <= 12 -> 1 <= D <= PyTime.days_in_month Y M ->
      0 <= h <= 23 -> 0 <= mi <= 59 -> 0 <= s <= 59 ->
      iso_z_to_ns (exact_form Y M D h mi s) = inr (epoch_seconds Y M D h mi s * 1000000000))
  /\
  (forall line n w m host
          t1 t2 t3 t4 pwr1 pwr2 pwr3 pwr4 ledamp ledwidth threshold v1 v2 v3 v4 ts ns,
      PyStr.split "," line =
        [m; host; t1; t2; t3; t4; pwr1; pwr2; pwr3; pwr4; ledamp; ledwidth; threshold;
         v1; v2; v3; v4; ts] ->
      iso_z_to_ns ts = inr ns ->
      run_curl env (curl_runs (trace w))
        (curl_cmd sender
           (spec_line_protocol host t1 t2 t3 t4 pwr1 pwr2 pwr3 pwr4 ledamp ledwidth
              threshold v1 v2 v3 v4 ns)) DEFAULT_TIMEOUT = None ->
      process_line env line sender n w =
        (inr tt,
         emits [Stdout (parsed_notice line n ns);
                Curl (curl_cmd sender
                        (spec_line_protocol host t1 t2 t3 t4 pwr1 pwr2 pwr3 pwr4 ledamp
                           ledwidth threshold v1 v2 v3 v4 ns)) DEFAULT_TIMEOUT;
                Log (parsed_message line n)] w)).
Proof.
  split.
  - intros. now apply iso_z_to_ns_exact.
  - intros line n w m host t1 t2 t3 t4 pwr1 pwr2 pwr3 pwr4 ledamp ledwidth threshold
      v1 v2 v3 v4 ts ns Hsplit Hts Hcurl.
    rewrite <- (payload_is_spec_line_protocol line m host t1 t2 t3 t4 pwr1 pwr2 pwr3 pwr4
                  ledamp ledwidth threshold v1 v2 v3 v4 ts ns Hsplit) in *.
    apply process_line_sent.
    + unfold field_count_ok. now rewrite Hsplit.
    + unfold timestamp_of. now rewrite Hsplit.
    + exact Hcurl.
Qed.

(** The line of the end-to-end scenario. *)
Lemma C8_witness :
  iso_z_to_ns "2025-06-09T21:58:12Z" = inr 1749506292000000000 /\
  process_line env_empty Sample.good_line the_sender 1 world0 =
    (inr tt,
     emits [Stdout (parsed_notice Sample.good_line 1 1749506292000000000);
            Curl (curl_cmd the_sender Sample.good_payload) DEFAULT_TIMEOUT;
            Log (parsed_message Sample.good_line 1)] world0).
Proof.
  split.
  - refine (proj1 (C8_record_is_serialized env_empty the_sender) 2025 6 9 21 58 12 _ _ _ _ _ _);
      try lia.
    change (1 <= 9 <= 30). lia.
  - refine (proj2 (C8_record_is_serialized env_empty the_sender) Sample.good_line 1 world0
              "mydatameasurement" "host1" "1" "2" "3" "4" "5" "6" "7" "8" "9" "10" "11"
              "12" "13" "14" "15" "2025-06-09T21:58:12Z" 1749506292000000000 _ _ _);
      reflexivity.
Defined.

(** The timestamp [2025-6-9T1:2:3Z] is in no exact form (it is five
    characters short), and [strptime], for which the leading zero of a
    month, day, hour, minute or second is optional, accepts it: the line is
    sent. *)
Lemma C8_counterexample :
  (forall Y M D h mi s, exact_form Y M D h mi s <> "2025-6-9T1:2:3Z")
  /\ iso_z_to_ns "2025-6-9T1:2:3Z" = inr 1749430923000000000
  /\ trace (snd (process_line env_empty unpadded_line the_sender 1 world0)) =
       [Stdout (parsed_notice unpadded_line 1 1749430923000000000);
        Curl (curl_cmd the_sender (payload unpadded_line 1749430923000000000))
          DEFAULT_TIMEOUT;
        Log (parsed_message unpadded_line 1)].
Proof.
  split; [|split].
  - intros Y M D h mi s H. apply (f_equal String.length) in H. discriminate H.
  - reflexivity.
  - reflexivity.
Qed.

(* ------------------------------------------------------------------ *)
(** ** Which lines reach the sender (C9)                                *)
(* ------------------------------------------------------------------ *)




(* ------------------------------------------------------------------ *)
(** ** Stripping (C10)                                                  *)
(* ------------------------------------------------------------------ *)

Lemma lstrip_lead lead s : all_space lead = true -> PyStr.lstrip (lead ++ s) = PyStr.lstrip s.
Proof.
  induction lead as [|c lead IH]; [reflexivity|].
  cbn [all_space append PyStr.lstrip]. intros H. apply andb_prop in H as [Hc Hl].
  rewrite Hc. now apply IH.
Qed.

Lemma rstrip_all_space trail : all_space trail = true -> PyStr.rstrip trail = "".
Proof.
  induction trail as [|c trail IH]; [reflexivity|].
  cbn [all_space PyStr.rstrip]. intros H. apply andb_prop in H as [Hc Hl].
  now rewrite (IH Hl), Hc.
Qed.

Lemma rstrip_trail s trail :
  all_space trail = true -> PyStr.rstrip (s ++ trail) = PyStr.rstrip s.
Proof.
  intros H. induction s as [|c s IH]; cbn [append PyStr.rstrip].
  - now apply rstrip_all_space.
  - now rewrite IH.
Qed.

Lemma candidate_lstrip body : candidate body = true -> PyStr.lstrip body = body.
Proof.
  destruct body as [|c body]; [reflexivity|].
  unfold candidate, MEASUREMENT. cbn [PyStr.startswith PyStr.lstrip].
  intros H. apply andb_prop in H as [Hc _]. apply Ascii.eqb_eq in Hc. now subst c.
Qed.

Lemma strip_surrounded lead body trail :
  all_space lead = true -> all_space trail = true ->
  candidate body = true -> PyStr.rstrip body = body ->
  PyStr.strip (lead ++ body ++ trail) = body.
Proof.
  intros Hl Ht Hc Hr. unfold PyStr.strip.
  rewrite lstrip_lead by assumption.
  assert (Hb : PyStr.lstrip (body ++ trail) = body ++ trail).
  { destruct body as [|c body]; [discriminate Hc|].
    cbn [append PyStr.lstrip].
    unfold candidate, MEASUREMENT in Hc. cbn [PyStr.startswith] in Hc.
    apply andb_prop in Hc as [Hc _]. apply Ascii.eqb_eq in Hc. now subst c. }
  now rewrite Hb, rstrip_trail.
Qed.

Lemma take_line_newline_only_last s : newline_only_last (PyStr.take_line s) = true.
Proof.
  induction s as [|c s IH]; [reflexivity|].
  cbn [PyStr.take_line]. destruct (Ascii.eqb c PyStr.newline) eqn:Hc;
    cbn [newline_only_last]; rewrite Hc; [reflexivity | exact IH].
Qed.

Lemma lstrip_newline_only_last s :
  newline_only_last s = true -> newline_only_last (PyStr.lstrip s) = true.
Proof.
  induction s as [|c s IH]; [reflexivity|].
  cbn [PyStr.lstrip]. destruct (PyStr.is_space c); [|trivial].
  cbn [newline_only_last]. destruct (Ascii.eqb c PyStr.newline).
  - destruct s; [reflexivity | discriminate].
  - exact IH.
Qed.

Lemma rstrip_no_newline s :
  newline_only_last s = true -> no_newline (PyStr.rstrip s) = true.
Proof.
  induction s as [|c s IH]; [reflexivity|].
  cbn [newline_only_last PyStr.rstrip].
  destruct (Ascii.eqb c PyStr.newline) eqn:Hc.
  - destruct s; [|discriminate]. intros _. cbn [PyStr.rstrip].
    apply Ascii.eqb_eq in Hc. now subst c.
  - intros H. specialize (IH H).
    destruct (PyStr.rstrip s) as [|c' r].
    + destruct (PyStr.is_space c); [reflexivity|].
      cbn [no_newline]. now rewrite Hc.
    + cbn [no_newline] in *. now rewrite Hc, IH.
Qed.

Lemma strip_line_no_newline s : no_newline (PyStr.strip (PyStr.take_line s)) = true.
Proof.
  unfold PyStr.strip.
  apply rstrip_no_newline, lstrip_newline_only_last, take_line_newline_only_last.
Qed.

Lemma split_no_newline sep s :
  no_newline s = true -> Forall (fun p => no_newline p = true) (PyStr.split sep s).
Proof.
  induction s as [|c s IH]; cbn [no_newline PyStr.split].
  - intros _. now repeat constructor.
  - intros H. apply andb_prop in H as [Hc Hs]. specialize (IH Hs).
    destruct (Ascii.eqb c sep).
    + constructor; [reflexivity | exact IH].
    + destruct (PyStr.split sep s) as [|p ps].
      * constructor; [|constructor]. cbn [no_newline]. now rewrite Hc.
      * inversion IH as [|? ? Hp Hps]; subst.
        constructor; [|exact Hps]. cbn [no_newline]. now rewrite Hc, Hp.
Qed.

Lemma split_nonempty sep s : PyStr.split sep s <> [].
Proof.
  destruct s as [|c s]; cbn [PyStr.split]; [discriminate|].
  destruct (Ascii.eqb c sep); [discriminate|].
  destruct (PyStr.split sep s); discriminate.
Qed.

Lemma last_in {A} (l : list A) (d : A) : l <> [] -> In (last l d) l.
Proof.
  induction l as [|x l IH]; [congruence|]. intros _.
  destruct l as [|y l]; [now left|].
  right. apply IH. discriminate.
Qed.

(** C10.  The read blocks of the engine (lines 185-191 and 197-203) strip
    the line they read before the marker test and before parsing.  Whatever
    non-empty line [readline] returns, the marker is looked for in the
    stripped line, and it is the stripped line, numbered one more than the
    last, that [process_line] gets, the cursor moving over the raw line.
    So a line read as [lead ++ body ++ trail], with [lead] and [trail]
    whitespace (the line terminator included) and [body] starting with the
    marker and ending in a non-blank, is processed as [body].  And no field
    of the stripped line that [process_line] splits - the timestamp in
    particular - holds a newline. *)
Theorem C10_lines_are_stripped (env : Env) (sender : Sender) (c : Cursor) (w : World) :
  (PyStr.truthy (next_raw env c w) = true ->
   read_and_process env sender c w =
     if candidate (PyStr.strip (next_raw env c w)) then
       match process_line env (PyStr.strip (next_raw env c w)) sender (line_number c + 1) w
       with
       | (inl e, w') => (inl e, w')
       | (inr _, w') => (inr (true, advance c (next_raw env c w)), w')
       end
     else (inr (false, advance c (next_raw env c w)), w))
  /\ (forall lead body trail,
         all_space lead = true -> all_space trail = true ->
         candidate body = true -> PyStr.rstrip body = body ->
         next_raw env c w = lead ++ body ++ trail ->
         read_and_process env sender c w =
           match process_line env body sender (line_number c + 1) w with
           | (inl e, w') => (inl e, w')
           | (inr _, w') => (inr (true, advance c (lead ++ body ++ trail)), w')
           end)
  /\ Forall (fun p => no_newline p = true)
       (PyStr.split "," (PyStr.strip (next_raw env c w)))
  /\ no_newline (timestamp_of (PyStr.strip (next_raw env c w))) = true.
Proof.
  split; [|split; [|split]].
  - intros Ht. destruct (candidate (PyStr.strip (next_raw env c w))) eqn:Hc.
    + now apply read_candidate.
    + now apply read_non_candidate.
  - intros lead body trail Hl Ht Hc Hr Hraw.
    pose proof (strip_surrounded lead body trail Hl Ht Hc Hr) as Hs.
    rewrite <- Hraw in Hs |- *.
    rewrite read_candidate.
    + now rewrite Hs.
    + rewrite Hraw. destruct body; [discriminate Hc|].
      destruct lead; reflexivity.
    + now rewrite Hs.
  - apply split_no_newline, strip_line_no_newline.
  - pose proof (split_no_newline "," _ (strip_line_no_newline
                  (PyStr.drop (pos c) (content env (now w) (file c))))) as H.
    rewrite Forall_forall in H. apply H.
    apply last_in, split_nonempty.
Qed.

(** The scenario's line behind two blanks and before a tab and the line
    terminator: the record sent and the entry logged are those of the bare
    line, and the cursor is behind all 84 characters. *)
Lemma C10_witness :
  read_and_process env_indented the_sender (Sample.at_start Sample.a_txt)
    (Sample.opened Sample.a_txt) =
    (inr (true, mk_cursor Sample.a_txt 84 1),
     emits [Stdout (parsed_notice Sample.good_line 1 1749506292000000000);
            Curl (curl_cmd the_sender Sample.good_payload) DEFAULT_TIMEOUT;
            Log (parsed_message Sample.good_line 1)] (Sample.opened Sample.a_txt)).
Proof.
  rewrite (proj1 (proj2 (C10_lines_are_stripped env_indented the_sender
                           (Sample.at_start Sample.a_txt) (Sample.opened Sample.a_txt)))
             "  " Sample.good_line (String "009" Sample.nl));
    reflexivity.
Defined.

(* ------------------------------------------------------------------ *)
(** ** What stops the process (C6)                                      *)
(* ------------------------------------------------------------------ *)

Lemma step_rotation_check env sender wait_time c w files w' :
  next_raw env c w = "" ->
  0 <= wait_time ->
  sleep_interrupted env (now w) = false ->
  next_raw env c (slept wait_time w) = "" ->
  list_txt_files env (slept wait_time w) = (inr files, w') ->
  engine_step env sender wait_time (InLoop c) w =
    (inr match find_next_file (file c) files with
         | Some newer => AtOpen newer
         | None => InLoop c
         end, w').
Proof.
  intros H1 Hw Hi H2 Hl.
  unfold engine_step, inner_iteration, retry_after_wait, rotation_check, bind.
  rewrite (read_eof _ _ _ _ H1). cbn [fst snd].
  rewrite sleep_returns by assumption.
  rewrite (read_eof _ _ _ _ H2). cbn [fst snd]. rewrite Hl.
  destruct (find_next_file (file c) files); reflexivity.
Qed.

(** C6 (amended).  A line that is no candidate, or a candidate with the
    wrong field count, raises nothing.  When both reads find the end of
    the file and the listing does not hold the current file, the engine
    goes on: with the last file of the listing, or, the listing being
    empty, with the file it has.  The process stops exactly when an
    exception leaves [process_files]: with status 0 for an interrupt and
    with status 1 for every other exception, whatever raised it. *)
Theorem C6_what_stops_the_process (env : Env) (sender : Sender) (wait_time : Z) :
  (forall c w,
      candidate (PyStr.strip (next_raw env c w)) = false \/
      field_count_ok (PyStr.strip (next_raw env c w)) = false ->
      exists r w', read_and_process env sender c w = (inr r, w'))
  /\
  (forall c w files w',
      next_raw env c w = "" ->
      0 <= wait_time ->
      sleep_interrupted env (now w) = false ->
      next_raw env c (slept wait_time w) = "" ->
      list_txt_files env (slept wait_time w) = (inr files, w') ->
      ~ In (file c) files ->
      engine_step env sender wait_time (InLoop c) w =
        (inr match last_or_none files with
             | Some lst => AtOpen lst
             | None => InLoop c
             end, w'))
  /\
  (forall fuel st w,
      fst (guarded env fuel sender wait_time st w) =
        match fst (run env fuel sender wait_time st w) with
        | inr st' => Running st'
        | inl e => Exited (if is_Exception e then 1 else 0)
        end).
Proof.
  split; [|split].
  - intros c w H.
    destruct (PyStr.truthy (next_raw env c w)) eqn:Ht.
    + destruct (candidate (PyStr.strip (next_raw env c w))) eqn:Hc.
      * destruct H as [H|H]; [discriminate H|].
        rewrite (read_candidate _ _ _ _ Ht Hc), (process_line_skip _ _ _ _ _ H).
        eexists. eexists. reflexivity.
      * rewrite (read_non_candidate _ _ _ _ Ht Hc). eexists. eexists. reflexivity.
    + rewrite read_eof; [eexists; eexists; reflexivity|].
      destruct (next_raw env c w); [reflexivity | discriminate Ht].
  - intros c w files w' H1 Hw Hi H2 Hl Hout.
    rewrite (step_rotation_check _ _ _ _ _ _ _ H1 Hw Hi H2 Hl).
    unfold find_next_file. now rewrite (index_absent _ _ Hout).
  - intros fuel st w. unfold guarded.
    destruct (run env fuel sender wait_time st w) as [[e|st'] w']; [|reflexivity].
    destruct e; reflexivity.
Qed.

(** The current file was moved away and the directory is empty: the
    engine keeps waiting on the handle it has. *)
Lemma C6_witness :
  engine_step env_empty the_sender 60 (InLoop (Sample.at_start Sample.a_txt)) world0 =
    (inr (InLoop (Sample.at_start Sample.a_txt)), emits [ListDir] (slept 60 world0)).
Proof.
  refine (proj1 (proj2 (C6_what_stops_the_process env_empty the_sender 60))
            (Sample.at_start Sample.a_txt) world0 [] (emits [ListDir] (slept 60 world0))
            _ _ _ _ _ _).
  - reflexivity.
  - lia.
  - reflexivity.
  - reflexivity.
  - reflexivity.
  - intros [].
Defined.

(** No candidate line was read, curl never ran and nobody interrupted,
    and the process exits with status 1 on the directory the rotation
    picked. *)
Lemma C6_counterexample :
  main env_directory 3 Sample.a_txt 60 world0 =
    (Exited 1,
     mk_world 60
       [Open Sample.a_txt; Log "[OPEN] Processing file: /data/a.txt";
        Sleep 60; ListDir; Open archive_txt;
        Log "[FATAL] [Errno 21] Is a directory: '/data/archive.txt'"]).
Proof. reflexivity. Qed.

(* ------------------------------------------------------------------ *)
(** ** Lines that are no candidates (C2, C1)                            *)
(* ------------------------------------------------------------------ *)

(** C2 (the code departs from the claim).  When the first read of a pass
    returns a line that is no candidate, the pass does not go back to the
    head of the loop: the [continue] of line 191 is not reached, so the
    engine sleeps [wait_time] and goes on with the read after the wait and,
    if that read does not reach its [continue] either, with the rotation
    check.  The cursor and the line number have advanced. *)
Theorem C2_non_candidate_line_waits
  (env : Env) (sender : Sender) (wait_time : Z) (c : Cursor) (w : World) :
  PyStr.truthy (next_raw env c w) = true ->
  candidate (PyStr.strip (next_raw env c w)) = false ->
  0 <= wait_time ->
  sleep_interrupted env (now w) = false ->
  inner_iteration env sender wait_time c w =
    retry_after_wait env sender (file c) (advance c (next_raw env c w))
      (slept wait_time w).
Proof.
  intros Ht Hc Hw Hi. unfold inner_iteration, bind.
  rewrite (read_non_candidate _ _ _ _ Ht Hc). cbn [fst snd].
  now rewrite sleep_returns.
Qed.

(** After the comment on line 1 the engine sleeps 60 seconds, reads the
    comment on line 2, and leaves for [b.txt]. *)
Lemma C2_witness :
  inner_iteration env_comments the_sender 60 (Sample.at_start Sample.a_txt)
    (Sample.opened Sample.a_txt) =
    (inr (Break Sample.b_txt),
     emits [Sleep 60; ListDir] (mk_world 60 (trace (Sample.opened Sample.a_txt)))).
Proof.
  rewrite (C2_non_candidate_line_waits env_comments the_sender 60
             (Sample.at_start Sample.a_txt) (Sample.opened Sample.a_txt)
             eq_refl eq_refl ltac:(lia) eq_refl).
  reflexivity.
Defined.

Lemma idle_trace wait_time n w :
  exists more, trace (idle wait_time n w) = (trace w ++ more)%list /\ curl_runs more = 0%nat.
Proof.
  revert w. induction n as [|n IH]; intros w; cbn [idle].
  - exists []. now rewrite app_nil_r.
  - destruct (IH (emits [ListDir] (slept wait_time w))) as [more [Ht Hc]].
    exists ([Sleep wait_time; ListDir] ++ more)%list. split.
    + rewrite Ht. cbn [trace emits slept]. now rewrite <- !app_assoc.
    + rewrite curl_runs_app, Hc. reflexivity.
Qed.

Lemma idle_on_b n w :
  run env_comments n the_sender 60 (InLoop (Sample.at_start Sample.b_txt)) w =
    (inr (InLoop (Sample.at_start Sample.b_txt)), idle 60 n w).
Proof.
  revert w. induction n as [|n IH]; intros w; [reflexivity|].
  rewrite (run_step _ _ _ _ _ _ (InLoop (Sample.at_start Sample.b_txt))
             (emits [ListDir] (slept 60 w))).
  - apply IH.
  - rewrite (step_rotation_check env_comments the_sender 60 _ w
               [Sample.a_txt; Sample.b_txt] (emits [ListDir] (slept 60 w)));
      try reflexivity.
    lia.
Qed.

(** C1 (the code departs from the claim).  Started on [a.txt] of
    [env_comments], the engine opens [b.txt] after the two comment lines
    and stays there, however long it runs; curl is never run, so the
    candidate on line 3 of [a.txt] is never attempted. *)
Theorem C1_rotation_leaves_candidate_unread (n : nat) :
  fst (main env_comments (3 + n) Sample.a_txt 60 world0) =
    Running (InLoop (Sample.at_start Sample.b_txt))
  /\ exists more,
       trace (snd (main env_comments (3 + n) Sample.a_txt 60 world0)) =
         ([Open Sample.a_txt; Log "[OPEN] Processing file: /data/a.txt";
           Sleep 60; ListDir;
           Open Sample.b_txt; Log "[OPEN] Processing file: /data/b.txt"] ++ more)%list
       /\ curl_runs more = 0%nat.
Proof.
  assert (Hr : reaches env_comments 60 Sample.a_txt world0 3
                 (InLoop (Sample.at_start Sample.b_txt))
                 (mk_world 60
                    [Open Sample.a_txt; Log "[OPEN] Processing file: /data/a.txt";
                     Sleep 60; ListDir;
                     Open Sample.b_txt; Log "[OPEN] Processing file: /data/b.txt"]))
    by (split; reflexivity).
  rewrite (main_resume _ _ _ _ _ _ _ n Hr).
  rewrite (guarded_running _ _ _ _ _ _ _ _ (idle_on_b n _)). cbn [fst snd].
  split; [reflexivity|]. apply idle_trace.
Qed.

(* ------------------------------------------------------------------ *)
(** ** More on the directory scanner                                    *)
(* ------------------------------------------------------------------ *)

Lemma list_txt_files_listing env w :
  list_txt_files env w = (listing env (now w), emits [ListDir] w).
Proof.
  unfold list_txt_files, listing.
  destruct (stat_all env (now w) (glob_txt env (now w))); reflexivity.
Qed.

Lemma insert_by_key_filter k x l :
  filter (fun y => fst y =? k) (insert_by_key x l) =
    if fst x =? k then x :: filter (fun y => fst y =? k) l
    else filter (fun y => fst y =? k) l.
Proof.
  induction l as [|y l IH]; cbn [insert_by_key filter].
  - destruct (fst x =? k); reflexivity.
  - destruct (Z.leb_spec (fst x) (fst y)) as [Hle|Hgt]; cbn [filter].
    + destruct (fst x =? k); reflexivity.
    + rewrite IH.
      destruct (Z.eqb_spec (fst x) k) as [Hx|Hx]; [|reflexivity].
      destruct (Z.eqb_spec (fst y) k) as [Hy|Hy]; [lia | reflexivity].
Qed.

Lemma sorted_by_key_filter k l :
  filter (fun y => fst y =? k) (sorted_by_key l) = filter (fun y => fst y =? k) l.
Proof.
  induction l as [|x l IH]; [reflexivity|].
  cbn [sorted_by_key fold_right]. fold (sorted_by_key l).
  rewrite insert_by_key_filter, IH. cbn [filter]. reflexivity.
Qed.

Lemma filter_map_snd (f : Path -> Z) k (l : list (Z * Path)) :
  Forall (fun x => fst x = f (snd x)) l ->
  filter (fun p => f p =? k) (map snd l) = map snd (filter (fun y => fst y =? k) l).
Proof.
  induction 1 as [|x l Hx Hl IH]; [reflexivity|].
  cbn [map filter]. rewrite Hx, IH. destruct (f (snd x) =? k); reflexivity.
Qed.

Lemma keyed_by (f : Path -> Z) (ps : list Path) :
  Forall (fun x => fst x = f (snd x)) (map (fun p => (f p, p)) ps).
Proof. induction ps as [|p ps IH]; cbn [map]; constructor; [reflexivity | exact IH]. Qed.

(** X1.  The listing neither loses nor invents a path, and paths with the
    same modification time stay in the order of the glob. *)
Theorem listing_is_stable_permutation (env : Env) (w : World) (files : list Path) (w' : World) :
  list_txt_files env w = (inr files, w') ->
  Permutation files (glob_txt env (now w))
  /\ forall k,
       filter (fun p => mtime_of env (now w) p =? k) files =
       filter (fun p => mtime_of env (now w) p =? k) (glob_txt env (now w)).
Proof.
  intros H. split; [exact (proj1 (listing_is_sorted_glob _ _ _ _ H))|].
  intros k. unfold list_txt_files in H.
  destruct (stat_all env (now w) (glob_txt env (now w))) as [e|keyed] eqn:Hs; [discriminate|].
  injection H as <- _. apply stat_all_keys in Hs.
  rewrite (filter_map_snd (mtime_of env (now w))).
  - rewrite sorted_by_key_filter, Hs.
    rewrite <- (filter_map_snd (mtime_of env (now w))) by apply keyed_by.
    rewrite map_map. cbn [snd]. now rewrite map_id.
  - eapply Permutation_Forall; [symmetry; apply sorted_by_key_perm|].
    rewrite Hs. apply keyed_by.
Qed.

Lemma listing_is_stable_permutation_witness :
  filter (fun p => mtime_of env_tie 0 p =? 2) [Sample.a_txt; Sample.b_txt; d_txt; c_txt] =
  filter (fun p => mtime_of env_tie 0 p =? 2) [Sample.b_txt; Sample.a_txt; d_txt; c_txt].
Proof.
  exact (proj2 (listing_is_stable_permutation env_tie world0
                  [Sample.a_txt; Sample.b_txt; d_txt; c_txt] (emit ListDir world0) eq_refl) 2).
Defined.

Lemma stat_all_error env t ps e :
  stat_all env t ps = inl e <->
  exists before p after,
    ps = (before ++ p :: after)%list
    /\ Forall (fun q => exists k, st_mtime env t q = inr k) before
    /\ st_mtime env t p = inl e.
Proof.
  induction ps as [|q ps IH]; cbn [stat_all].
  - split; [discriminate|].
    intros (before & p & after & H & _). destruct before; discriminate H.
  - destruct (st_mtime env t q) as [e'|k] eqn:Hq.
    + split.
      * intros [= ->]. exists [], q, ps. repeat split; [constructor | exact Hq].
      * intros (before & p & after & H & Hb & Hp).
        destruct before as [|q' before]; cbn [app] in H; injection H as H1 H2; subst.
        -- congruence.
        -- inversion Hb as [|? ? [k Hk] ?]; subst. congruence.
    + destruct (stat_all env t ps) as [e'|l] eqn:Hs.
      * split.
        -- intros [= ->].
           destruct (proj1 IH eq_refl) as (before & p & after & -> & Hb & Hp).
           exists (q :: before), p, after. repeat split; [|exact Hp].
           constructor; [now exists k | exact Hb].
        -- intros (before & p & after & H & Hb & Hp).
           destruct before as [|q' before]; cbn [app] in H; injection H as H1 H2; subst.
           ++ congruence.
           ++ assert (Heq : inl e' = inl e :> exn + list (Z * Path)).
              { apply IH. exists before, p, after. inversion Hb; subst. now repeat split. }
              now injection Heq as ->.
      * split; [discriminate|].
        intros (before & p & after & H & Hb & Hp).
        destruct before as [|q' before]; cbn [app] in H; injection H as H1 H2; subst.
        -- congruence.
        -- assert (Habs : inr l = inl e :> exn + list (Z * Path)); [|discriminate Habs].
           apply IH. exists before, p, after. inversion Hb; subst. now repeat split.
Qed.

(** X2.  The listing raises exactly when [stat] raises for a path of the
    glob, and then what it raises is the exception of the first such path,
    in glob order. *)
Theorem listing_raises_on_first_stat_error (env : Env) (w : World) (e : exn) :
  fst (list_txt_files env w) = inl e <->
  exists before p after,
    glob_txt env (now w) = (before ++ p :: after)%list
    /\ Forall (fun q => exists k, st_mtime env (now w) q = inr k) before
    /\ st_mtime env (now w) p = inl e.
Proof.
  rewrite list_txt_files_listing. cbn [fst]. unfold listing.
  rewrite <- stat_all_error.
  destruct (stat_all env (now w) (glob_txt env (now w))) as [e'|keyed].
  - split; intros [= ->]; reflexivity.
  - split; discriminate.
Qed.

Lemma index_found current files idx :
  index current files = Some idx ->
  exists before rest,
    files = (before ++ current :: rest)%list
    /\ List.length before = idx /\ ~ In current before.
Proof.
  revert idx. induction files as [|f files IH]; intros idx; cbn [index]; [discriminate|].
  destruct (String.eqb_spec f current) as [->|Hne].
  - intros [= <-]. exists [], files. repeat split. intros [].
  - destruct (index current files) as [i|]; [|discriminate].
    intros [= <-]. destruct (IH i eq_refl) as (before & rest & -> & Hlen & Hout).
    exists (f :: before), rest. repeat split.
    + cbn. now rewrite Hlen.
    + intros [H|H]; [contradiction | exact (Hout H)].
Qed.

Lemma index_none_absent current files :
  index current files = None -> ~ In current files.
Proof.
  induction files as [|f files IH]; cbn [index]; [intros _ []|].
  destruct (String.eqb_spec f current) as [->|Hne]; [discriminate|].
  destruct (index current files); [discriminate|].
  intros _ [H|H]; [contradiction | exact (IH eq_refl H)].
Qed.

Lemma last_or_none_in files (p : Path) : last_or_none files = Some p -> In p files.
Proof.
  destruct files as [|f files]; [discriminate|]. intros [= <-].
  destruct files as [|g files]; [now left|].
  right. apply last_in. discriminate.
Qed.

Lemma find_next_file_in current files nxt :
  find_next_file current files = Some nxt -> In nxt files.
Proof.
  unfold find_next_file. destruct (index current files) as [idx|] eqn:Hi.
  - destruct (Nat.ltb (idx + 1) (List.length files)); [|discriminate].
    apply nth_error_In.
  - apply last_or_none_in.
Qed.

Lemma find_next_file_not_current current files nxt :
  NoDup files -> find_next_file current files = Some nxt -> nxt <> current.
Proof.
  intros Hnd H. pose proof (find_next_file_in _ _ _ H) as Hin.
  unfold find_next_file in H. destruct (index current files) as [idx|] eqn:Hi.
  - destruct (index_found _ _ _ Hi) as (before & rest & -> & Hlen & Hout).
    assert (Hn : hd_error rest = Some nxt).
    { rewrite <- (find_next_file_successor _ _ _ Hout). unfold find_next_file.
      now rewrite Hi. }
    destruct rest as [|r rest]; [discriminate Hn|]. injection Hn as ->.
    intros ->. apply NoDup_remove_2 in Hnd. apply Hnd.
    apply in_or_app. right. now left.
  - intros ->. exact (index_none_absent _ _ Hi Hin).
Qed.

(** X3.  What [find_next_file] returns is a path of the listing; and in a
    listing without repetitions it is never the current file itself. *)
Theorem find_next_file_picks_another_listed_file
  (current : Path) (files : list Path) (nxt : Path) :
  find_next_file current files = Some nxt ->
  In nxt files /\ (NoDup files -> nxt <> current).
Proof.
  intros H. split.
  - exact (find_next_file_in _ _ _ H).
  - intros Hnd. exact (find_next_file_not_current _ _ _ Hnd H).
Qed.

Lemma find_next_file_picks_another_listed_file_witness :
  In c_txt [Sample.a_txt; Sample.b_txt; c_txt]
  /\ (NoDup [Sample.a_txt; Sample.b_txt; c_txt] -> c_txt <> Sample.b_txt).
Proof.
  exact (find_next_file_picks_another_listed_file Sample.b_txt
           [Sample.a_txt; Sample.b_txt; c_txt] c_txt eq_refl).
Defined.

Lemma sorted_neighbours {A} (R : A -> A -> Prop) before a b after :
  StronglySorted R (before ++ a :: b :: after) -> R a b.
Proof.
  induction before as [|x before IH]; cbn [app]; intros H.
  - apply StronglySorted_inv in H as [_ H]. now inversion H.
  - apply StronglySorted_inv in H as [H _]. now apply IH.
Qed.

Lemma sorted_last_is_greatest {A} (R : A -> A -> Prop) (l : list A) (d : A) :
  (forall x, R x x) -> StronglySorted R l -> Forall (fun x => R x (last l d)) l.
Proof.
  intros Hrefl. induction 1 as [|x l Hs IH Hall]; [constructor|].
  destruct l as [|y l]; [constructor; [apply Hrefl | constructor]|].
  change (last (x :: y :: l) d) with (last (y :: l) d).
  constructor; [|exact IH].
  rewrite Forall_forall in Hall. apply Hall.
  destruct (exists_last (l := y :: l)) as (l' & z & Hz); [discriminate|].
  rewrite Hz, last_last. apply in_or_app. right. now left.
Qed.

Lemma last_cons_default {A} (x : A) (l : list A) (d : A) : last (x :: l) d = last l x.
Proof.
  revert x d. induction l as [|y l IH]; intros x d; [reflexivity|].
  change (last (x :: y :: l) d) with (last (y :: l) d). now rewrite !IH.
Qed.

(** X4.  On a listing made by [list_txt_files], the file [find_next_file]
    returns is not older than the current file when the listing holds the
    current file, and is a newest file of the listing when it does not. *)
Theorem find_next_file_goes_forward_in_time
  (env : Env) (w : World) (files : list Path) (w' : World) (current nxt : Path) :
  list_txt_files env w = (inr files, w') ->
  find_next_file current files = Some nxt ->
  (In current files -> mtime_of env (now w) current <= mtime_of env (now w) nxt)
  /\ (~ In current files ->
      Forall (fun p => mtime_of env (now w) p <= mtime_of env (now w) nxt) files).
Proof.
  intros Hl Hn. destruct (listing_is_sorted_glob _ _ _ _ Hl) as [_ Hs].
  unfold find_next_file in Hn. destruct (index current files) as [idx|] eqn:Hi.
  - split; [intros _ | intros Hout; exfalso].
    + destruct (index_found _ _ _ Hi) as (before & rest & -> & Hlen & Hout).
      assert (Hh : hd_error rest = Some nxt).
      { rewrite <- (find_next_file_successor _ _ _ Hout). unfold find_next_file.
        now rewrite Hi. }
      destruct rest as [|r rest]; [discriminate Hh|]. injection Hh as ->.
      exact (sorted_neighbours _ _ _ _ _ Hs).
    + destruct (index_found _ _ _ Hi) as (before & rest & -> & _).
      apply Hout, in_or_app. right. now left.
  - split; [intros Hin; exfalso; exact (index_none_absent _ _ Hi Hin) | intros _].
    destruct files as [|f files]; [discriminate Hn|]. injection Hn as <-.
    rewrite <- (last_cons_default f files f).
    apply (sorted_last_is_greatest
             (fun p q => mtime_of env (now w) p <= mtime_of env (now w) q)); [|exact Hs].
    intros x. lia.
Qed.

Lemma find_next_file_goes_forward_in_time_witness :
  (In Sample.b_txt [Sample.a_txt; Sample.b_txt; c_txt] ->
   mtime_of env_three 0 Sample.b_txt <= mtime_of env_three 0 c_txt)
  /\ (~ In Sample.b_txt [Sample.a_txt; Sample.b_txt; c_txt] ->
      Forall (fun p => mtime_of env_three 0 p <= mtime_of env_three 0 c_txt)
        [Sample.a_txt; Sample.b_txt; c_txt]).
Proof.
  exact (find_next_file_goes_forward_in_time env_three world0
           [Sample.a_txt; Sample.b_txt; c_txt] (emit ListDir world0)
           Sample.b_txt c_txt eq_refl eq_refl).
Defined.

(* ------------------------------------------------------------------ *)
(** ** More on timestamps                                               *)
(* ------------------------------------------------------------------ *)

Lemma in_mbind {A B} (m : PyTime.matcher A) (f : A -> PyTime.matcher B) s x :
  In x (PyTime.mbind m f s) <-> exists a r, In (a, r) (m s) /\ In x (f a r).
Proof.
  unfold PyTime.mbind. rewrite in_flat_map. split.
  - intros [[a r] [H1 H2]]. now exists a, r.
  - intros (a & r & H1 & H2). now exists (a, r).
Qed.

Lemma in_mret {A} (a : A) s a' r : In (a', r) (PyTime.mret a s) -> a' = a /\ r = s.
Proof. unfold PyTime.mret. intros [H|[]]. split; congruence. Qed.

Lemma in_alt {A} (m1 m2 : PyTime.matcher A) s x :
  In x (PyTime.alt m1 m2 s) <-> In x (m1 s) \/ In x (m2 s).
Proof. unfold PyTime.alt. apply in_app_iff. Qed.

Lemma digit_val_inv c d :
  PyTime.digit_val c = Some d -> 0 <= d <= 9 /\ c = digit_char d.
Proof.
  unfold PyTime.digit_val.
  destruct ((48 <=? nat_of_ascii c) && (nat_of_ascii c <=? 57))%nat eqn:E; [|discriminate].
  intros [= <-]. apply andb_prop in E as [E1 E2].
  apply Nat.leb_le in E1, E2. split; [lia|].
  unfold digit_char. rewrite Nat2Z.id.
  replace (48 + (nat_of_ascii c - 48))%nat with (nat_of_ascii c) by lia.
  symmetry. apply ascii_nat_embedding.
Qed.

(** A digit class consumes the one character that writes its value. *)
Lemma in_cls lo hi s d r :
  In (d, r) (PyTime.cls lo hi s) ->
  lo <= d <= hi /\ 0 <= d <= 9 /\ s = one_digit d ++ r.
Proof.
  unfold PyTime.cls. destruct s as [|c s]; [intros []|].
  destruct (PyTime.digit_val c) as [v|] eqn:Hv; [|intros []].
  destruct (Z.leb_spec lo v); cbn [andb]; [|intros []].
  destruct (Z.leb_spec v hi); [|intros []].
  intros [[= <- <-]|[]]. apply digit_val_inv in Hv as [Hr ->].
  split; [lia|]. split; [lia | reflexivity].
Qed.

Lemma two_digits_of a b :
  0 <= a <= 9 -> 0 <= b <= 9 -> two_digits (10 * a + b) = one_digit a ++ one_digit b.
Proof.
  intros Ha Hb. unfold two_digits, one_digit. cbn [append].
  replace ((10 * a + b) / 10) with a by zlia.
  replace ((10 * a + b) mod 10) with b by zlia.
  reflexivity.
Qed.

Lemma in_cls2 lo1 hi1 lo2 hi2 s v r :
  In (v, r) (PyTime.cls2 lo1 hi1 lo2 hi2 s) ->
  (exists a b, v = 10 * a + b /\ lo1 <= a <= hi1 /\ lo2 <= b <= hi2
               /\ 0 <= a <= 9 /\ 0 <= b <= 9)
  /\ s = two_digits v ++ r.
Proof.
  unfold PyTime.cls2. rewrite in_mbind. intros (a & r1 & Ha & H).
  rewrite in_mbind in H. destruct H as (b & r2 & Hb & H).
  apply in_mret in H as [-> ->].
  apply in_cls in Ha as (Ha & Ha9 & ->). apply in_cls in Hb as (Hb & Hb9 & ->).
  split; [now exists a, b|].
  rewrite (two_digits_of a b Ha9 Hb9). now rewrite append_assoc.
Qed.

Lemma in_lit c s u r :
  In (u, r) (PyTime.lit c s) ->
  exists c', s = String c' r /\ PyTime.lower c' = PyTime.lower c.
Proof.
  unfold PyTime.lit. destruct s as [|c' s]; [intros []|].
  destruct (Ascii.eqb_spec (PyTime.lower c') (PyTime.lower c)) as [He|]; [|intros []].
  intros [H|[]]. injection H as _ <-. now exists c'.
Qed.

Ltac by_cases_on c :=
  destruct c as [[] [] [] [] [] [] [] []]; intros H;
  first [discriminate H | reflexivity | now left | now right].

Lemma lower_is_z c :
  PyTime.lower c = PyTime.lower "Z" -> c = "Z"%char \/ c = "z"%char.
Proof. by_cases_on c. Qed.

Lemma lower_is_t c :
  PyTime.lower c = PyTime.lower "T" -> c = "T"%char \/ c = "t"%char.
Proof. by_cases_on c. Qed.

Lemma lower_is_dash c : PyTime.lower c = PyTime.lower "-" -> c = "-"%char.
Proof. by_cases_on c. Qed.

Lemma lower_is_colon c : PyTime.lower c = PyTime.lower ":" -> c = ":"%char.
Proof. by_cases_on c. Qed.

Lemma lower_is_blank c : PyTime.lower c = PyTime.lower " " -> c = " "%char.
Proof. by_cases_on c. Qed.

Lemma spells_two n r s : s = two_digits n ++ r -> exists t, s = t ++ r /\ spells n t.
Proof. intros ->. exists (two_digits n). split; [reflexivity | now left]. Qed.

Lemma spells_one n r s :
  n <= 9 -> s = one_digit n ++ r -> exists t, s = t ++ r /\ spells n t.
Proof. intros Hn ->. exists (one_digit n). split; [reflexivity | now right]. Qed.

Ltac split_matches :=
  repeat match goal with
         | H : In _ (PyTime.alt _ _ _) |- _ => apply in_alt in H as [H|H]
         | H : In _ (PyTime.cls2 _ _ _ _ _) |- _ =>
             apply in_cls2 in H as [(?a & ?b & ? & ? & ? & ? & ?) ?]
         | H : In _ (PyTime.cls _ _ _) |- _ => apply in_cls in H as (? & ? & ?)
         end.

Ltac spelled :=
  split; [lia | first [ eapply spells_two; eassumption
                      | eapply spells_one; [lia | eassumption] ]].

Lemma in_re_Y s v r :
  In (v, r) (PyTime.re_Y s) -> 0 <= v <= 9999 /\ s = four_digits v ++ r.
Proof.
  unfold PyTime.re_Y. rewrite in_mbind. intros (hi & r1 & H1 & H).
  rewrite in_mbind in H. destruct H as (lo & r2 & H2 & H).
  apply in_mret in H as [-> ->].
  split_matches. split; [lia|]. subst s r1. unfold four_digits.
  replace ((100 * hi + lo) / 100) with hi by zlia.
  replace ((100 * hi + lo) mod 100) with lo by zlia.
  now rewrite append_assoc.
Qed.

Lemma in_re_m s v r :
  In (v, r) (PyTime.re_m s) -> 1 <= v <= 12 /\ exists t, s = t ++ r /\ spells v t.
Proof. unfold PyTime.re_m. intros H. split_matches; spelled. Qed.

Lemma in_re_d s v r :
  In (v, r) (PyTime.re_d s) -> 1 <= v <= 31 /\ exists t, s = t ++ r /\ spells_day v t.
Proof.
  unfold PyTime.re_d. intros H.
  assert (Hs : (1 <= v <= 31 /\ exists t, s = t ++ r /\ spells v t)
               \/ In (v, r) (PyTime.mbind (PyTime.lit " ") (fun _ => PyTime.cls 1 9) s)).
  { split_matches; first [left; spelled | now right]. }
  destruct Hs as [(Hv & t & Ht & Hsp)|Hb].
  - split; [exact Hv|]. exists t. split; [exact Ht | now left].
  - rewrite in_mbind in Hb. destruct Hb as (u & r1 & Hl & Hd).
    apply in_lit in Hl as (c' & -> & Hc). apply lower_is_blank in Hc as ->.
    apply in_cls in Hd as (Hv & _ & ->).
    split; [lia|]. exists (" " ++ one_digit v). split; [reflexivity|].
    right. split; [lia | reflexivity].
Qed.

Lemma in_re_H s v r :
  In (v, r) (PyTime.re_H s) -> 0 <= v <= 23 /\ exists t, s = t ++ r /\ spells v t.
Proof. unfold PyTime.re_H. intros H. split_matches; spelled. Qed.

Lemma in_re_M s v r :
  In (v, r) (PyTime.re_M s) -> 0 <= v <= 59 /\ exists t, s = t ++ r /\ spells v t.
Proof. unfold PyTime.re_M. intros H. split_matches; spelled. Qed.

Lemma in_re_S s v r :
  In (v, r) (PyTime.re_S s) -> 0 <= v <= 61 /\ exists t, s = t ++ r /\ spells v t.
Proof. unfold PyTime.re_S. intros H. split_matches; spelled. Qed.

(** Every match of the format consumes a text that spells the numbers it
    reads, separators included; [r] is what it leaves. *)
Lemma in_re_format s tm r :
  In (tm, r) (PyTime.re_format s) ->
  (exists ms ds hs mis ss t z,
      s = four_digits (PyTime.tm_year tm) ++ "-" ++ ms ++ "-" ++ ds
          ++ String t (hs ++ ":" ++ mis ++ ":" ++ ss ++ String z r)
      /\ spells (PyTime.tm_mon tm) ms /\ spells_day (PyTime.tm_mday tm) ds
      /\ spells (PyTime.tm_hour tm) hs /\ spells (PyTime.tm_min tm) mis
      /\ spells (PyTime.tm_sec tm) ss
      /\ (t = "T" \/ t = "t")%char /\ (z = "Z" \/ z = "z")%char)
  /\ 0 <= PyTime.tm_year tm <= 9999 /\ 1 <= PyTime.tm_mon tm <= 12
  /\ 1 <= PyTime.tm_mday tm <= 31 /\ 0 <= PyTime.tm_hour tm <= 23
  /\ 0 <= PyTime.tm_min tm <= 59 /\ 0 <= PyTime.tm_sec tm <= 61.
Proof.
  unfold PyTime.re_format. intros H.
  rewrite in_mbind in H. destruct H as (Y & r1 & HY & H).
  rewrite in_mbind in H. destruct H as (u1 & r2 & Hl1 & H).
  rewrite in_mbind in H. destruct H as (M & r3 & HM & H).
  rewrite in_mbind in H. destruct H as (u2 & r4 & Hl2 & H).
  rewrite in_mbind in H. destruct H as (D & r5 & HD & H).
  rewrite in_mbind in H. destruct H as (u3 & r6 & Hl3 & H).
  rewrite in_mbind in H. destruct H as (h & r7 & Hh & H).
  rewrite in_mbind in H. destruct H as (u4 & r8 & Hl4 & H).
  rewrite in_mbind in H. destruct H as (mi & r9 & Hmi & H).
  rewrite in_mbind in H. destruct H as (u5 & r10 & Hl5 & H).
  rewrite in_mbind in H. destruct H as (sec & r11 & Hsec & H).
  rewrite in_mbind in H. destruct H as (u6 & r12 & Hl6 & H).
  apply in_mret in H as [-> ->].
  apply in_re_Y in HY as (HY & ->).
  apply in_lit in Hl1 as (c1 & -> & Hc1). apply lower_is_dash in Hc1 as ->.
  apply in_re_m in HM as (HM & ms & -> & Hms).
  apply in_lit in Hl2 as (c2 & -> & Hc2). apply lower_is_dash in Hc2 as ->.
  apply in_re_d in HD as (HD & ds & -> & Hds).
  apply in_lit in Hl3 as (t & -> & Ht). apply lower_is_t in Ht.
  apply in_re_H in Hh as (Hh & hs & -> & Hhs).
  apply in_lit in Hl4 as (c4 & -> & Hc4). apply lower_is_colon in Hc4 as ->.
  apply in_re_M in Hmi as (Hmi & mis & -> & Hmis).
  apply in_lit in Hl5 as (c5 & -> & Hc5). apply lower_is_colon in Hc5 as ->.
  apply in_re_S in Hsec as (Hsec & ss & -> & Hss).
  apply in_lit in Hl6 as (z & -> & Hz). apply lower_is_z in Hz.
  cbn [PyTime.tm_year PyTime.tm_mon PyTime.tm_mday PyTime.tm_hour PyTime.tm_min PyTime.tm_sec].
  split; [|now repeat split].
  exists ms, ds, hs, mis, ss, t, z. now repeat split.
Qed.

(** X5.  A timestamp that [iso_z_to_ns] accepts - a string of code
    points below 256, where the decimal digits are [0] to [9] - is
    written as year, month, day, hour, minute and second with the
    separators of the format, and the numbers it is read as name an
    existing calendar day of the years 1 to 9999 and a time of day (the
    second may be 60 or 61); the result is the nanoseconds from the epoch
    to that time.  So a day that does not exist, such as 30 February, is
    never converted. *)
Theorem iso_z_to_ns_accepts_only_real_dates (s : string) (ns : Z) :
  iso_z_to_ns s = inr ns ->
  exists Y M D h mi sec,
    reads_as s Y M D h mi sec
    /\ 1 <= Y <= 9999 /\ 1 <= M <= 12 /\ 1 <= D <= PyTime.days_in_month Y M
    /\ 0 <= h <= 23 /\ 0 <= mi <= 59 /\ 0 <= sec <= 61
    /\ ns = epoch_seconds Y M D h mi sec * 1000000000.
Proof.
  unfold iso_z_to_ns, PyTime.strptime.
  destruct (PyTime.re_format s) as [|[tm rest] tl] eqn:Hre; [discriminate|].
  destruct rest as [|c rest]; cbn [PyStr.truthy]; [|discriminate].
  assert (Hin : In (tm, EmptyString) (PyTime.re_format s)) by (rewrite Hre; now left).
  apply in_re_format in Hin as (Hread & HY & HM & HD & Hh & Hmi & Hs).
  unfold PyTime.check_date.
  destruct (Z.leb_spec 1 (PyTime.tm_year tm)); cbn [andb negb]; [|discriminate].
  destruct (Z.leb_spec (PyTime.tm_year tm) 9999); cbn [negb]; [|discriminate].
  destruct (Z.leb_spec 1 (PyTime.tm_mon tm)); cbn [andb negb]; [|discriminate].
  destruct (Z.leb_spec (PyTime.tm_mon tm) 12); cbn [negb]; [|discriminate].
  destruct (Z.leb_spec 1 (PyTime.tm_mday tm)); cbn [andb negb]; [|discriminate].
  destruct (Z.leb_spec (PyTime.tm_mday tm)
              (PyTime.days_in_month (PyTime.tm_year tm) (PyTime.tm_mon tm)));
    cbn [negb]; [|discriminate].
  intros [= <-].
  exists (PyTime.tm_year tm), (PyTime.tm_mon tm), (PyTime.tm_mday tm),
    (PyTime.tm_hour tm), (PyTime.tm_min tm), (PyTime.tm_sec tm).
  split; [exact Hread|].
  repeat (split; [lia|]).
  f_equal. unfold PyTime.timegm, epoch_seconds, PyTime.EPOCH_ORD, PyTime.ymd2ord. ring.
Qed.

Lemma iso_z_to_ns_accepts_only_real_dates_witness :
  exists Y M D h mi sec,
    reads_as "2025-6-9T1:2:3Z" Y M D h mi sec
    /\ 1 <= Y <= 9999 /\ 1 <= M <= 12 /\ 1 <= D <= PyTime.days_in_month Y M
    /\ 0 <= h <= 23 /\ 0 <= mi <= 59 /\ 0 <= sec <= 61
    /\ 1749430923000000000 = epoch_seconds Y M D h mi sec * 1000000000.
Proof.
  exact (iso_z_to_ns_accepts_only_real_dates "2025-6-9T1:2:3Z" 1749430923000000000 eq_refl).
Defined.

(* ------------------------------------------------------------------ *)
(** ** More on [send] and [process_line]                                *)
(* ------------------------------------------------------------------ *)

Lemma curl_notice_is_error e timeout :
  PyStr.startswith (curl_notice e timeout) "[ERROR] " = true.
Proof. destruct e; reflexivity. Qed.

(** X6.  [send] changes the world in one of three ways.  When curl exits
    with status 0, only the run of curl is added and [send] returns.  When
    the run raises an [Exception], the same notice, starting with
    [[ERROR]], goes to the log and to the console, and the exception is
    raised again.  When the run is interrupted, nothing is logged or
    printed and the interrupt goes on. *)
Theorem send_logs_exactly_the_failures
  (env : Env) (sender : Sender) (lp : string) (timeout : Z) (w : World) :
  match run_curl env (curl_runs (trace w)) (curl_cmd sender lp) timeout with
  | None =>
      send env sender lp timeout w = (inr tt, emits [Curl (curl_cmd sender lp) timeout] w)
  | Some e =>
      if is_Exception e then
        send env sender lp timeout w =
          (inl e, emits [Curl (curl_cmd sender lp) timeout;
                         Log (curl_notice e timeout); Stdout (curl_notice e timeout)] w)
        /\ PyStr.startswith (curl_notice e timeout) "[ERROR] " = true
      else
        send env sender lp timeout w =
          (inl KeyboardInterrupt, emits [Curl (curl_cmd sender lp) timeout] w)
  end.
Proof.
  destruct (run_curl env (curl_runs (trace w)) (curl_cmd sender lp) timeout) as [e|] eqn:H.
  - destruct (is_Exception e) eqn:He.
    + split; [now apply send_failed | apply curl_notice_is_error].
    + destruct e; try discriminate He. now apply send_interrupted.
  - now apply send_delivered.
Qed.

Lemma startswith_refl s : PyStr.startswith s s = true.
Proof. induction s as [|c s IH]; [reflexivity|]. cbn. now rewrite Ascii.eqb_refl. Qed.

Lemma contains_at_end a x : PyStr.contains (a ++ x) x = true.
Proof. apply contains_app_r, contains_prefix, startswith_refl. Qed.

(** X7.  Unless an interrupt arrives while curl runs, [process_line] ends
    by writing a log entry that names the line number and holds the line:
    whether the line was skipped, sent, rejected by the parser or failed
    in transport, it leaves its mark in the log. *)
Theorem process_line_always_logs
  (env : Env) (sender : Sender) (line : string) (n : Z) (w : World) :
  fst (process_line env line sender n w) <> inl KeyboardInterrupt ->
  exists before m,
    trace (snd (process_line env line sender n w)) = (trace w ++ before ++ [Log m])%list
    /\ PyStr.contains m (PyStr.of_Z n) = true
    /\ PyStr.contains m line = true.
Proof.
  intros Hk.
  destruct (field_count_ok line) eqn:Hf.
  - destruct (iso_z_to_ns (timestamp_of line)) as [e|ns] eqn:Ht.
    + rewrite (process_line_malformed _ _ _ _ _ _ Hf Ht). cbn [snd trace emits].
      exists [], (parse_failed_message line n e). split; [reflexivity|].
      unfold parse_failed_message. split.
      * apply contains_here.
      * apply contains_app_r, contains_app_r, contains_here.
    + destruct (run_curl env (curl_runs (trace w)) (curl_cmd sender (payload line ns))
                  DEFAULT_TIMEOUT) as [e|] eqn:Hc.
      * destruct (is_Exception e) eqn:He.
        -- rewrite (process_line_send_failed _ _ _ _ _ _ _ Hf Ht Hc He).
           cbn [snd trace emits].
           exists [Stdout (parsed_notice line n ns);
                   Curl (curl_cmd sender (payload line ns)) DEFAULT_TIMEOUT;
                   Log (curl_notice e DEFAULT_TIMEOUT);
                   Stdout (curl_notice e DEFAULT_TIMEOUT)], (parse_failed_message line n e).
           split; [reflexivity|]. unfold parse_failed_message. split.
           ++ apply contains_here.
           ++ apply contains_app_r, contains_app_r, contains_here.
        -- destruct e; try discriminate He.
           rewrite (process_line_send_interrupted _ _ _ _ _ _ Hf Ht Hc) in Hk.
           now contradiction Hk.
      * rewrite (process_line_sent _ _ _ _ _ _ Hf Ht Hc). cbn [snd trace emits].
        exists [Stdout (parsed_notice line n ns);
                Curl (curl_cmd sender (payload line ns)) DEFAULT_TIMEOUT],
          (parsed_message line n).
        split; [reflexivity|]. unfold parsed_message. split.
        -- apply contains_here.
        -- apply contains_app_r, contains_app_r, contains_at_end.
  - rewrite (process_line_skip _ _ _ _ _ Hf). cbn [snd trace emits].
    exists [], (skip_message line n). split; [reflexivity|].
    unfold skip_message. split.
    + apply contains_here.
    + apply contains_app_r, contains_app_r, contains_at_end.
Qed.

Lemma process_line_always_logs_witness :
  exists before m,
    trace (snd (process_line env_rejecting Sample.good_line the_sender 7 world0)) =
      (trace world0 ++ before ++ [Log m])%list
    /\ PyStr.contains m (PyStr.of_Z 7) = true
    /\ PyStr.contains m Sample.good_line = true.
Proof.
  apply (process_line_always_logs env_rejecting the_sender Sample.good_line 7 world0).
  discriminate.
Defined.

Lemma split_first_field m tail :
  no_comma m = true ->
  PyStr.split "," (m ++ "," ++ tail) = m :: PyStr.split "," tail.
Proof.
  induction m as [|c m IH]; [reflexivity|].
  cbn [no_comma append PyStr.split]. intros H. apply andb_prop in H as [Hc Hm].
  apply negb_true_iff in Hc. rewrite Hc. cbn [append] in IH. now rewrite (IH Hm).
Qed.

Lemma no_comma_app a b : no_comma a = true -> no_comma b = true -> no_comma (a ++ b) = true.
Proof.
  intros Ha Hb. induction a as [|c a IH]; [exact Hb|].
  cbn [no_comma append] in *. apply andb_prop in Ha as [Hc Ha].
  now rewrite Hc, IH.
Qed.

Lemma strip_truthy s : PyStr.truthy (PyStr.strip s) = true -> PyStr.truthy s = true.
Proof. destruct s; [discriminate | reflexivity]. Qed.

(** X8.  The marker is tested as a prefix and the first field is never
    read again.  When the stripped line the engine reads has a first field
    that goes on behind the marker, and the line with the bare marker in
    its place is well formed, the read block treats the line as a
    candidate and [process_line] sends the record of the line with the bare
    marker - measurement name [mydatameasurement] - while the log entry
    holds the line as it was read. *)
Theorem first_field_is_only_a_prefix_test
  (env : Env) (sender : Sender) (c : Cursor) (w : World) (x tail : string) (ns : Z) :
  no_comma x = true ->
  PyStr.strip (next_raw env c w) = MEASUREMENT ++ x ++ "," ++ tail ->
  field_count_ok (MEASUREMENT ++ "," ++ tail) = true ->
  iso_z_to_ns (timestamp_of (MEASUREMENT ++ "," ++ tail)) = inr ns ->
  run_curl env (curl_runs (trace w))
    (curl_cmd sender (payload (MEASUREMENT ++ "," ++ tail) ns)) DEFAULT_TIMEOUT = None ->
  read_and_process env sender c w =
    (inr (true, advance c (next_raw env c w)),
     emits [Stdout (parsed_notice (MEASUREMENT ++ "," ++ tail) (line_number c + 1) ns);
            Curl (curl_cmd sender (payload (MEASUREMENT ++ "," ++ tail) ns)) DEFAULT_TIMEOUT;
            Log (parsed_message (MEASUREMENT ++ x ++ "," ++ tail) (line_number c + 1))] w).
Proof.
  intros Hx Hs Hf Ht Hc.
  assert (H1 : PyStr.split "," (MEASUREMENT ++ x ++ "," ++ tail)
               = (MEASUREMENT ++ x) :: PyStr.split "," tail).
  { rewrite <- append_assoc. apply split_first_field.
    now apply no_comma_app. }
  assert (H2 : PyStr.split "," (MEASUREMENT ++ "," ++ tail)
               = MEASUREMENT :: PyStr.split "," tail)
    by now apply split_first_field.
  assert (Hlast : timestamp_of (MEASUREMENT ++ x ++ "," ++ tail)
                  = timestamp_of (MEASUREMENT ++ "," ++ tail)).
  { unfold timestamp_of. rewrite H1, H2.
    pose proof (split_nonempty "," tail) as Hne.
    destruct (PyStr.split "," tail) as [|p ps]; [contradiction | reflexivity]. }
  assert (Hcount : field_count_ok (MEASUREMENT ++ x ++ "," ++ tail) = true).
  { unfold field_count_ok in *. now rewrite H1; rewrite H2 in Hf. }
  assert (Hpay : payload (MEASUREMENT ++ x ++ "," ++ tail) ns
                 = payload (MEASUREMENT ++ "," ++ tail) ns).
  { unfold payload. now rewrite H1, H2. }
  assert (Hnote : forall n, parsed_notice (MEASUREMENT ++ x ++ "," ++ tail) n ns
                            = parsed_notice (MEASUREMENT ++ "," ++ tail) n ns).
  { intros n. unfold parsed_notice. now rewrite H1, H2. }
  rewrite read_candidate.
  - rewrite Hs.
    rewrite (process_line_sent env sender _ _ _ ns Hcount); [| now rewrite Hlast |].
    + now rewrite Hpay, Hnote.
    + now rewrite Hpay.
  - apply strip_truthy. rewrite Hs. reflexivity.
  - rewrite Hs. apply startswith_app.
Qed.

Lemma first_field_is_only_a_prefix_test_witness :
  read_and_process env_suffixed the_sender (Sample.at_start Sample.a_txt)
    (Sample.opened Sample.a_txt) =
    (inr (true, mk_cursor Sample.a_txt 84 1),
     emits [Stdout (parsed_notice Sample.good_line 1 1749506292000000000);
            Curl (curl_cmd the_sender Sample.good_payload) DEFAULT_TIMEOUT;
            Log (parsed_message suffixed_line 1)] (Sample.opened Sample.a_txt)).
Proof.
  exact (first_field_is_only_a_prefix_test env_suffixed the_sender
           (Sample.at_start Sample.a_txt) (Sample.opened Sample.a_txt) "_v2"
           "host1,1,2,3,4,5,6,7,8,9,10,11,12,13,14,15,2025-06-09T21:58:12Z"
           1749506292000000000 eq_refl eq_refl eq_refl eq_refl eq_refl).
Defined.

(* ------------------------------------------------------------------ *)
(** ** More on the tailing engine                                       *)
(* ------------------------------------------------------------------ *)

(** A read that returns normally either found the end of the file and
    left the cursor, or moved the cursor over the line it read. *)
Lemma read_result env sender c w b c1 w1 :
  read_and_process env sender c w = (inr (b, c1), w1) ->
  (c1 = c /\ b = false /\ w1 = w /\ next_raw env c w = "")
  \/ (c1 = advance c (next_raw env c w) /\ PyStr.truthy (next_raw env c w) = true
      /\ b = candidate (PyStr.strip (next_raw env c w))
      /\ (b = false -> w1 = w)).
Proof.
  destruct (PyStr.truthy (next_raw env c w)) eqn:Ht.
  - destruct (candidate (PyStr.strip (next_raw env c w))) eqn:Hc.
    + rewrite (read_candidate _ _ _ _ Ht Hc).
      destruct (process_line _ _ _ _ _) as [[e|[]] w2]; [discriminate|].
      intros [= <- <- <-]. right. repeat split. discriminate.
    + rewrite (read_non_candidate _ _ _ _ Ht Hc).
      intros [= <- <- <-]. right. now repeat split.
  - assert (He : next_raw env c w = "")
      by (destruct (next_raw env c w); [reflexivity | discriminate Ht]).
    rewrite (read_eof _ _ _ _ He). intros [= <- <- <-]. left. now repeat split.
Qed.

Lemma sleep_returned env wait_time w w1 :
  sleep env wait_time w = (inr tt, w1) ->
  0 <= wait_time /\ sleep_interrupted env (now w) = false /\ w1 = slept wait_time w.
Proof.
  unfold sleep. destruct (Z.ltb_spec wait_time 0); [discriminate|].
  destruct (sleep_interrupted env (now w)); [discriminate|].
  intros [= <-]. now repeat split.
Qed.

Lemma after_read_eof c : after_read c "" = c.
Proof.
  destruct c as [f p n]. unfold after_read, lines_read. cbn.
  f_equal; [apply Nat.add_0_r | apply Z.add_0_r].
Qed.

Lemma after_read_line c raw : PyStr.truthy raw = true -> after_read c raw = advance c raw.
Proof. intros H. unfold after_read, advance, lines_read. now rewrite H. Qed.

(** A read that returns normally leaves the cursor behind what
    [readline] returned. *)
Lemma read_moves_cursor env sender c w b c1 w1 :
  read_and_process env sender c w = (inr (b, c1), w1) ->
  c1 = after_read c (next_raw env c w)
  /\ b = candidate (PyStr.strip (next_raw env c w))
  /\ (b = false -> w1 = w).
Proof.
  intros H. apply read_result in H as [(-> & -> & -> & He)|(-> & Ht & Hb & Hw)].
  - rewrite He. now rewrite after_read_eof.
  - now rewrite after_read_line.
Qed.

(** X9.  A pass of the internal loop that stays on the file leaves the
    cursor behind what it read.  If the line the first [readline] returns
    is a candidate, that is the one line: the position grows by its length
    and the line number by one.  Otherwise the pass slept and read again,
    and the cursor is behind what the two calls of [readline], before and
    after the wait, returned: each adds its length to the position, and
    one to the line number unless it returned the empty string of the end
    of the file. *)
Theorem pass_moves_cursor_over_lines_read
  (env : Env) (sender : Sender) (wait_time : Z) (c : Cursor) (w : World)
  (c' : Cursor) (w' : World) :
  inner_iteration env sender wait_time c w = (inr (Continue c'), w') ->
  c' = if candidate (PyStr.strip (next_raw env c w))
       then after_read c (next_raw env c w)
       else after_read (after_read c (next_raw env c w))
              (next_raw env (after_read c (next_raw env c w)) (slept wait_time w)).
Proof.
  unfold inner_iteration, retry_after_wait, rotation_check, bind.
  destruct (read_and_process env sender c w) as [[e|[b c1]] w1] eqn:H1; [discriminate|].
  apply read_moves_cursor in H1 as (-> & Hb & Hw1).
  cbn [fst snd]. rewrite <- Hb. destruct b.
  - now intros [= <- _].
  - rewrite (Hw1 eq_refl).
    destruct (sleep env wait_time w) as [[e|[]] w2] eqn:Hs; [discriminate|].
    apply sleep_returned in Hs as (_ & _ & ->).
    destruct (read_and_process env sender _ (slept wait_time w))
      as [[e|[b2 c2]] w3] eqn:H2; [discriminate|].
    apply read_moves_cursor in H2 as (-> & _ & _).
    cbn [fst snd]. destruct b2.
    + now intros [= <- _].
    + destruct (list_txt_files env w3) as [[e|files] w4]; [discriminate|].
      destruct (find_next_file (file c) files); [discriminate|].
      now intros [= <- _].
Qed.

(** The start file is empty at first and holds the scenario's line after
    the wait: nothing, and then one line of 81 characters. *)
Lemma pass_moves_cursor_over_lines_read_witness :
  mk_cursor Sample.a_txt 81 1 =
    after_read (after_read (Sample.at_start Sample.a_txt) "")
      (Sample.good_line ++ Sample.nl).
Proof.
  exact (pass_moves_cursor_over_lines_read env_growing the_sender 60
           (Sample.at_start Sample.a_txt) (Sample.opened Sample.a_txt)
           (mk_cursor Sample.a_txt 81 1)
           (emits [Stdout (parsed_notice Sample.good_line 1 1749506292000000000);
                   Curl (curl_cmd the_sender Sample.good_payload) DEFAULT_TIMEOUT;
                   Log (parsed_message Sample.good_line 1)]
              (slept 60 (Sample.opened Sample.a_txt)))
           eq_refl).
Defined.

(** A read that does not reach its [continue] leaves the world as it
    was. *)
Lemma read_without_continue env sender c w c1 w1 :
  read_and_process env sender c w = (inr (false, c1), w1) -> w1 = w.
Proof.
  intros H. apply read_result in H as [(_ & _ & -> & _)|(_ & _ & _ & Hw)];
    [reflexivity | now apply Hw].
Qed.

(** X10.  The engine leaves a file only at the end of a pass in which
    neither read reached its [continue]: it has then slept once, listed
    the directory once, and done nothing else.  The file it turns to is one
    the glob returned at that moment, and, the glob being without
    repetitions, it is not the file it leaves. *)
Theorem rotation_follows_one_wait_and_one_listing
  (env : Env) (sender : Sender) (wait_time : Z) (c : Cursor) (w : World)
  (newer : Path) (w' : World) :
  engine_step env sender wait_time (InLoop c) w = (inr (AtOpen newer), w') ->
  0 <= wait_time
  /\ w' = emits [Sleep wait_time; ListDir] (mk_world (now w + wait_time) (trace w))
  /\ In newer (glob_txt env (now w + wait_time))
  /\ (NoDup (glob_txt env (now w + wait_time)) -> newer <> file c).
Proof.
  unfold engine_step, inner_iteration, retry_after_wait, rotation_check, bind.
  destruct (read_and_process env sender c w) as [[e|[b c1]] w1] eqn:H1; [discriminate|].
  cbn [fst snd]. destruct b; [discriminate|].
  apply read_without_continue in H1 as ->.
  destruct (sleep env wait_time w) as [[e|[]] w2] eqn:Hs; [discriminate|].
  apply sleep_returned in Hs as (Hw & _ & ->).
  destruct (read_and_process env sender c1 (slept wait_time w))
    as [[e|[b2 c2]] w3] eqn:H2; [discriminate|].
  cbn [fst snd]. destruct b2; [discriminate|].
  apply read_without_continue in H2 as ->.
  destruct (list_txt_files env (slept wait_time w)) as [[e|files] w4] eqn:Hl; [discriminate|].
  destruct (find_next_file (file c) files) as [nxt|] eqn:Hn; [|discriminate].
  intros [= <- <-].
  pose proof (listing_is_sorted_glob _ _ _ _ Hl) as [Hperm _].
  cbn [now slept] in Hperm.
  pose proof (find_next_file_in _ _ _ Hn) as Hin.
  pose proof (fun Hnd => find_next_file_not_current _ _ _ Hnd Hn) as Hne.
  split; [exact Hw|]. split.
  - rewrite list_txt_files_listing in Hl. injection Hl as _ <-.
    unfold emits, slept. cbn [now trace]. now rewrite <- app_assoc.
  - split.
    + eapply Permutation_in; eassumption.
    + intros Hnd. apply Hne. eapply Permutation_NoDup; [symmetry; exact Hperm | exact Hnd].
Qed.

Lemma rotation_follows_one_wait_and_one_listing_witness :
  0 <= 60
  /\ mk_world 60 (trace (Sample.opened Sample.a_txt) ++ [Sleep 60; ListDir])
     = emits [Sleep 60; ListDir] (mk_world (now (Sample.opened Sample.a_txt) + 60)
                                    (trace (Sample.opened Sample.a_txt)))
  /\ In Sample.b_txt (glob_txt env_comments (now (Sample.opened Sample.a_txt) + 60))
  /\ (NoDup (glob_txt env_comments (now (Sample.opened Sample.a_txt) + 60)) ->
      Sample.b_txt <> file (Sample.at_start Sample.a_txt)).
Proof.
  exact (rotation_follows_one_wait_and_one_listing env_comments the_sender 60
           (Sample.at_start Sample.a_txt) (Sample.opened Sample.a_txt) Sample.b_txt
           (mk_world 60 (trace (Sample.opened Sample.a_txt) ++ [Sleep 60; ListDir]))
           eq_refl).
Defined.

(** *** Interrupts and a negative wait *)

Lemma step_interrupted_in_sleep env sender wait_time c w c1 :
  read_and_process env sender c w = (inr (false, c1), w) ->
  0 <= wait_time ->
  sleep_interrupted env (now w) = true ->
  engine_step env sender wait_time (InLoop c) w =
    (inl KeyboardInterrupt, emits [Sleep wait_time] w).
Proof.
  intros H1 Hw Hi. unfold engine_step, inner_iteration, bind. rewrite H1. cbn [fst snd].
  unfold sleep. rewrite Hi. destruct (Z.ltb_spec wait_time 0); [lia | reflexivity].
Qed.

(** X11.  An interrupt that arrives while the engine sleeps ends the
    process with exit status 0, after the entry [[INFO] Interrupted by
    user.] was logged and the notice printed. *)
Theorem interrupt_during_wait_exits_with_0
  (env : Env) (wait : Z) (start : Path) (w_init : World) (k : nat)
  (c : Cursor) (w : World) (c1 : Cursor) (fuel : nat) :
  reaches env wait start w_init k (InLoop c) w ->
  read_and_process env the_sender c w = (inr (false, c1), w) ->
  0 <= wait ->
  sleep_interrupted env (now w) = true ->
  main env (k + S fuel) start wait w_init =
    (Exited 0,
     emits [Sleep wait; Log "[INFO] Interrupted by user.";
            Stdout (String PyStr.newline "Interrupted by user.")] w).
Proof.
  intros Hr H1 Hw Hi. rewrite (main_resume _ _ _ _ _ _ _ _ Hr).
  rewrite (guarded_interrupt _ _ _ _ _ _ (emits [Sleep wait] w)).
  - now rewrite emits_emits.
  - apply run_raise. now apply step_interrupted_in_sleep with (c1 := c1).
Qed.

Lemma interrupt_during_wait_exits_with_0_witness :
  main env_interrupted 2 Sample.a_txt 60 world0 =
    (Exited 0,
     emits [Sleep 60; Log "[INFO] Interrupted by user.";
            Stdout (String PyStr.newline "Interrupted by user.")]
       (Sample.opened Sample.a_txt)).
Proof.
  refine (interrupt_during_wait_exits_with_0 env_interrupted 60 Sample.a_txt world0 1%nat
            (Sample.at_start Sample.a_txt) (Sample.opened Sample.a_txt)
            (Sample.at_start Sample.a_txt) 0%nat _ _ _ _).
  - split; reflexivity.
  - reflexivity.
  - lia.
  - reflexivity.
Defined.

(** X12.  An interrupt that arrives while curl runs for a line ends the
    process with exit status 0; for that line the log holds neither a
    [[PARSED]] nor an [[ERROR]] entry. *)
Theorem interrupt_during_send_exits_with_0
  (env : Env) (wait : Z) (start : Path) (w_init : World) (k : nat)
  (c : Cursor) (w : World) (line : string) (n : Z) (c' : Cursor) (w0 : World)
  (ns : Z) (fuel : nat) :
  reaches env wait start w_init k (InLoop c) w ->
  hands_over env the_sender wait c w line n c' w0 ->
  field_count_ok line = true ->
  iso_z_to_ns (timestamp_of line) = inr ns ->
  run_curl env (curl_runs (trace w0)) (curl_cmd the_sender (payload line ns))
    DEFAULT_TIMEOUT = Some KeyboardInterrupt ->
  main env (k + S fuel) start wait w_init =
    (Exited 0,
     emits [Stdout (parsed_notice line n ns);
            Curl (curl_cmd the_sender (payload line ns)) DEFAULT_TIMEOUT;
            Log "[INFO] Interrupted by user.";
            Stdout (String PyStr.newline "Interrupted by user.")] w0).
Proof.
  intros Hr Hh Hf Ht Hc. rewrite (main_resume _ _ _ _ _ _ _ _ Hr).
  rewrite (guarded_interrupt _ _ _ _ _ _
             (emits [Stdout (parsed_notice line n ns);
                     Curl (curl_cmd the_sender (payload line ns)) DEFAULT_TIMEOUT] w0)).
  - now rewrite emits_emits.
  - apply run_raise. rewrite (step_hands_over _ _ _ _ _ _ _ _ _ Hh).
    now rewrite (process_line_send_interrupted _ _ _ _ _ _ Hf Ht Hc).
Qed.

Lemma interrupt_during_send_exits_with_0_witness :
  main env_interrupted_send 2 Sample.a_txt 60 world0 =
    (Exited 0,
     emits [Stdout (parsed_notice Sample.good_line 1 1749506292000000000);
            Curl (curl_cmd the_sender (payload Sample.good_line 1749506292000000000))
              DEFAULT_TIMEOUT;
            Log "[INFO] Interrupted by user.";
            Stdout (String PyStr.newline "Interrupted by user.")]
       (Sample.opened Sample.a_txt)).
Proof.
  refine (interrupt_during_send_exits_with_0 env_interrupted_send 60 Sample.a_txt world0
            1%nat (Sample.at_start Sample.a_txt) (Sample.opened Sample.a_txt)
            Sample.good_line 1
            (advance (Sample.at_start Sample.a_txt) (Sample.good_line ++ Sample.nl))
            (Sample.opened Sample.a_txt) 1749506292000000000 0%nat _ _ _ _ _).
  - split; reflexivity.
  - exact (at_first_read env_interrupted_send the_sender 60 (Sample.at_start Sample.a_txt)
             (Sample.opened Sample.a_txt) eq_refl eq_refl).
  - reflexivity.
  - reflexivity.
  - reflexivity.
Defined.



(** *** Waiting, growth of the file, and runs of candidate lines *)

Lemma now_idle wait_time n w : now (idle wait_time n w) = now w + Z.of_nat n * wait_time.
Proof.
  revert w. induction n as [|n IH]; intros w; [cbn; lia|].
  cbn [idle]. rewrite IH. cbn [now emits slept]. lia.
Qed.

(** X14.  With a wait interval [time.sleep] can hold (none below zero,
    none above [LONGEST_WAIT]): while the file does not grow and no later
    file appears, the engine stays where it is for any number of passes;
    each pass sleeps once and lists the directory once, so [n] passes take
    [n] wait intervals. *)
Theorem engine_keeps_polling
  (env : Env) (sender : Sender) (wait_time : Z) (c : Cursor) (w : World) (n : nat) :
  0 <= wait_time <= LONGEST_WAIT ->
  quiet env c (now w) ->
  run env n sender wait_time (InLoop c) w = (inr (InLoop c), idle wait_time n w)
  /\ now (idle wait_time n w) = now w + Z.of_nat n * wait_time.
Proof.
  intros [Hw _] Hq. split; [|apply now_idle].
  revert w Hq. induction n as [|n IH]; intros w Hq; [reflexivity|].
  destruct (Hq (now w) ltac:(lia)) as (Hi & He & _).
  destruct (Hq (now w + wait_time) ltac:(lia)) as (_ & He' & files & Hl & Hn).
  rewrite (run_step _ _ _ _ _ _ (InLoop c) (emits [ListDir] (slept wait_time w))).
  - cbn [idle]. apply IH. intros t Ht. apply Hq. cbn [now emits slept] in Ht. lia.
  - rewrite (step_rotation_check env sender wait_time c w files
               (emits [ListDir] (slept wait_time w)));
      try assumption.
    + now rewrite Hn.
    + rewrite list_txt_files_listing. cbn [now slept]. now rewrite Hl.
Qed.

Lemma engine_keeps_polling_witness :
  run env_one_empty_file 5 the_sender 60 (InLoop (Sample.at_start Sample.a_txt))
    (Sample.opened Sample.a_txt)
  = (inr (InLoop (Sample.at_start Sample.a_txt)), idle 60 5 (Sample.opened Sample.a_txt))
  /\ now (idle 60 5 (Sample.opened Sample.a_txt))
     = now (Sample.opened Sample.a_txt) + Z.of_nat 5 * 60.
Proof.
  apply (engine_keeps_polling env_one_empty_file the_sender 60
           (Sample.at_start Sample.a_txt) (Sample.opened Sample.a_txt) 5).
  - unfold LONGEST_WAIT. lia.
  - intros t _. split; [reflexivity|]. split; [reflexivity|].
    exists [Sample.a_txt]. split; reflexivity.
Defined.

Lemma curl_runs_slept wait_time w :
  curl_runs (trace (slept wait_time w)) = curl_runs (trace w).
Proof.
  unfold slept. cbn [trace]. rewrite curl_runs_app.
  change (curl_runs [Sleep wait_time]) with 0%nat. lia.
Qed.

(** X15.  A well-formed candidate line that was appended while the
    engine slept is sent in the same pass, right after the sleep; the
    directory is not consulted, so no later file can take the engine away
    from it. *)
Theorem line_arriving_during_wait_is_sent
  (env : Env) (sender : Sender) (wait_time : Z) (c : Cursor) (w : World) (ns : Z) :
  next_raw env c w = "" ->
  0 <= wait_time ->
  sleep_interrupted env (now w) = false ->
  PyStr.truthy (next_raw env c (slept wait_time w)) = true ->
  candidate (PyStr.strip (next_raw env c (slept wait_time w))) = true ->
  field_count_ok (PyStr.strip (next_raw env c (slept wait_time w))) = true ->
  iso_z_to_ns (timestamp_of (PyStr.strip (next_raw env c (slept wait_time w)))) = inr ns ->
  run_curl env (curl_runs (trace w))
    (curl_cmd sender (payload (PyStr.strip (next_raw env c (slept wait_time w))) ns))
    DEFAULT_TIMEOUT = None ->
  engine_step env sender wait_time (InLoop c) w =
    (inr (InLoop (advance c (next_raw env c (slept wait_time w)))),
     emits [Stdout (parsed_notice (PyStr.strip (next_raw env c (slept wait_time w)))
                      (line_number c + 1) ns);
            Curl (curl_cmd sender
                    (payload (PyStr.strip (next_raw env c (slept wait_time w))) ns))
              DEFAULT_TIMEOUT;
            Log (parsed_message (PyStr.strip (next_raw env c (slept wait_time w)))
                   (line_number c + 1))]
       (slept wait_time w)).
Proof.
  intros He Hw Hi Ht Hc Hf Hts Hcurl.
  rewrite (step_hands_over env sender wait_time c w _ _ _ _
             (at_second_read env sender wait_time c w c
                (read_eof _ _ _ _ He) Hw Hi Ht Hc)).
  now rewrite (process_line_sent _ _ _ _ _ ns Hf Hts)
    by (rewrite curl_runs_slept; exact Hcurl).
Qed.

Lemma line_arriving_during_wait_is_sent_witness :
  engine_step env_growing the_sender 60 (InLoop (Sample.at_start Sample.a_txt))
    (Sample.opened Sample.a_txt) =
    (inr (InLoop (mk_cursor Sample.a_txt 81 1)),
     emits [Stdout (parsed_notice Sample.good_line 1 1749506292000000000);
            Curl (curl_cmd the_sender Sample.good_payload) DEFAULT_TIMEOUT;
            Log (parsed_message Sample.good_line 1)]
       (slept 60 (Sample.opened Sample.a_txt))).
Proof.
  refine (line_arriving_during_wait_is_sent env_growing the_sender 60
            (Sample.at_start Sample.a_txt) (Sample.opened Sample.a_txt)
            1749506292000000000 _ _ _ _ _ _ _ _);
    first [reflexivity | lia].
Defined.

(** X16.  A run of candidate lines, none with a malformed timestamp, is
    worked off one line per pass and in the order of the file, while curl
    delivers: each line with the wrong field count is logged as skipped,
    each other one is sent, and the engine neither sleeps nor looks at the
    directory in between. *)
Theorem candidate_lines_are_processed_in_order
  (env : Env) (sender : Sender) (wait_time : Z) (raws : list string)
  (c : Cursor) (w : World) :
  (forall k cmd timeout, run_curl env k cmd timeout = None) ->
  holds_lines env (now w) (file c) (pos c) raws ->
  forallb harmless raws = true ->
  run env (List.length raws) sender wait_time (InLoop c) w =
    (inr (InLoop (fold_left advance raws c)),
     emits (block_events sender raws (line_number c)) w).
Proof.
  intros Hcurl. revert c w.
  induction raws as [|raw raws IH]; intros c w Hh Hok.
  - cbn. now rewrite emits_nil.
  - destruct Hh as [Hraw Hrest]. fold (next_raw env c w) in Hraw.
    cbn [forallb] in Hok. apply andb_prop in Hok as [Hline Hok].
    unfold harmless in Hline. apply andb_prop in Hline as [Hline Hts].
    apply andb_prop in Hline as [Ht Hc].
    cbn [List.length fold_left block_events].
    rewrite (run_step _ _ _ _ _ _ (InLoop (advance c raw))
               (emits (line_events sender raw (line_number c + 1)) w)).
    + rewrite (IH (advance c raw)); [|exact Hrest | exact Hok].
      now rewrite emits_emits.
    + rewrite <- Hraw in Ht, Hc, Hts |- *.
      rewrite (step_candidate _ _ _ _ _ Ht Hc). unfold line_events.
      destruct (field_count_ok (PyStr.strip (next_raw env c w))) eqn:Hf.
      * cbn [negb orb] in Hts. unfold timestamp_ok in Hts.
        destruct (iso_z_to_ns (timestamp_of (PyStr.strip (next_raw env c w))))
          as [e|ns] eqn:Hi; [discriminate Hts|].
        now rewrite (process_line_sent _ _ _ _ _ ns Hf Hi (Hcurl _ _ _)).
      * now rewrite (process_line_skip _ _ _ _ _ Hf).
Qed.

Lemma candidate_lines_are_processed_in_order_witness :
  run env_short_then_good 2 the_sender 60 (InLoop (Sample.at_start Sample.a_txt))
    (Sample.opened Sample.a_txt) =
    (inr (InLoop (mk_cursor Sample.a_txt 111 2)),
     emits [Log (skip_message Sample.short_line 1);
            Stdout (parsed_notice Sample.good_line 2 1749506292000000000);
            Curl (curl_cmd the_sender Sample.good_payload) DEFAULT_TIMEOUT;
            Log (parsed_message Sample.good_line 2)] (Sample.opened Sample.a_txt)).
Proof.
  refine (candidate_lines_are_processed_in_order env_short_then_good the_sender 60
            [Sample.short_line ++ Sample.nl; Sample.good_line ++ Sample.nl]
            (Sample.at_start Sample.a_txt) (Sample.opened Sample.a_txt) _ _ _).
  - reflexivity.
  - repeat split.
  - reflexivity.
Defined.

(** *** Opening a file *)

(** X17.  A file that cannot be opened ends the process at once with exit
    status 1: nothing catches the error, no [[OPEN]] entry is logged and no
    other file is tried. *)
Theorem unopenable_file_is_fatal
  (env : Env) (wait : Z) (start : Path) (w_init : World) (k : nat)
  (p : Path) (w : World) (e : exn) (fuel : nat) :
  reaches env wait start w_init k (AtOpen p) w ->
  open_error env (now w) p = Some e ->
  is_Exception e = true ->
  main env (k + S fuel) start wait w_init =
    (Exited 1, emits [Open p; Log ("[FATAL] " ++ str_exn e)] w).
Proof.
  intros Hr Ho He. rewrite (main_resume _ _ _ _ _ _ _ _ Hr).
  rewrite (guarded_fatal _ _ _ _ _ _ e (emits [Open p] w)); [|apply run_raise|exact He].
  - now rewrite emits_emits.
  - unfold engine_step, bind, open_file. now rewrite Ho.
Qed.

Lemma unopenable_file_is_fatal_witness :
  main env_directory 3 Sample.a_txt 60 world0 =
    (Exited 1,
     emits [Open archive_txt; Log ("[FATAL] " ++ str_exn is_a_directory)]
       (mk_world 60 [Open Sample.a_txt; Log "[OPEN] Processing file: /data/a.txt";
                     Sleep 60; ListDir])).
Proof.
  refine (unopenable_file_is_fatal env_directory 60 Sample.a_txt world0 2%nat archive_txt
            (mk_world 60 [Open Sample.a_txt; Log "[OPEN] Processing file: /data/a.txt";
                          Sleep 60; ListDir])
            is_a_directory 0%nat _ _ _).
  - split; reflexivity.
  - reflexivity.
  - reflexivity.
Defined.

(* ------------------------------------------------------------------ *)
(** ** What a run may add to the trace                                  *)
(* ------------------------------------------------------------------ *)

Section Keeps.

Variable P : event -> Prop.

Lemma adds_refl w : adds P w w.
Proof. exists []. split; [now rewrite app_nil_r | constructor]. Qed.

Lemma adds_trans w1 w2 w3 : adds P w1 w2 -> adds P w2 w3 -> adds P w1 w3.
Proof.
  intros (e1 & H1 & F1) (e2 & H2 & F2). exists (e1 ++ e2)%list. split.
  - now rewrite H2, H1, app_assoc.
  - apply Forall_app. now split.
Qed.

Lemma adds_emit ev w : P ev -> adds P w (emit ev w).
Proof. intros H. exists [ev]. split; [reflexivity | now constructor]. Qed.

Lemma keeps_ret {A} (a : A) : keeps P (ret a).
Proof. intros w. apply adds_refl. Qed.

Lemma keeps_raise {A} (e : exn) : keeps P (@raise A e).
Proof. intros w. apply adds_refl. Qed.

Lemma keeps_bind {A B} (c : M A) (k : A -> M B) :
  keeps P c -> (forall a, keeps P (k a)) -> keeps P (bind c k).
Proof.
  intros Hc Hk w. unfold bind. specialize (Hc w).
  destruct (c w) as [[e|a] w1]; cbn [snd] in *; [exact Hc|].
  exact (adds_trans _ _ _ Hc (Hk a w1)).
Qed.

Lemma keeps_try_except {A} (body : M A) (handler : exn -> M A) :
  keeps P body -> (forall e, keeps P (handler e)) -> keeps P (try_except body handler).
Proof.
  intros Hb Hh w. unfold try_except. specialize (Hb w).
  destruct (body w) as [[e|a] w1]; cbn [snd] in *; [|exact Hb].
  destruct (is_Exception e); [|exact Hb].
  exact (adds_trans _ _ _ Hb (Hh e w1)).
Qed.

Lemma keeps_perform ev : P ev -> keeps P (perform ev).
Proof. intros H w. now apply adds_emit. Qed.

End Keeps.

Section KeepsPosts.

Variable env : Env.
Variable sender : Sender.

Lemma keeps_log m : keeps (posts_records_only sender) (log m).
Proof. now apply keeps_perform. Qed.

Lemma keeps_print m : keeps (posts_records_only sender) (print m).
Proof. now apply keeps_perform. Qed.

Lemma payload_starts_with_measurement parts ns :
  PyStr.startswith (line_protocol_of parts ns) "mydatameasurement,host=" = true.
Proof.
  exact (startswith_app "mydatameasurement,host="
           (item parts 1 ++ " " ++ fields_of parts ++ " " ++ PyStr.of_Z ns)).
Qed.

Lemma keeps_send parts ns :
  keeps (posts_records_only sender)
    (send env sender (line_protocol_of parts ns) DEFAULT_TIMEOUT).
Proof.
  unfold send. apply keeps_try_except.
  - intros w. unfold subprocess_run.
    assert (Hc : adds (posts_records_only sender) w
                   (emit (Curl ["curl"; "-f"; "-sS"; "-XPOST"; url sender;
                                       "--data-binary"; line_protocol_of parts ns]
                                   DEFAULT_TIMEOUT) w)).
    { apply adds_emit. split; [reflexivity|]. eexists. split; [reflexivity|].
      apply payload_starts_with_measurement. }
    destruct (run_curl env _ _ _); exact Hc.
  - intros e. apply keeps_bind; [|intros; apply keeps_raise].
    destruct e; (apply keeps_bind; [apply keeps_log | intros; apply keeps_print]).
Qed.

Lemma keeps_process_line line n :
  keeps (posts_records_only sender) (process_line env line sender n).
Proof.
  unfold process_line. apply keeps_bind.
  - apply keeps_try_except.
    + unfold process_line_body.
      destruct (negb _).
      * apply keeps_bind; [apply keeps_log | intros; apply keeps_ret].
      * destruct (iso_z_to_ns _) as [e|ns]; [apply keeps_raise|].
        apply keeps_bind; [apply keeps_print|]. intros _.
        apply keeps_bind; [apply keeps_send | intros; apply keeps_ret].
    + intros e. apply keeps_bind; [apply keeps_log | intros; apply keeps_raise].
  - intros [|]; [apply keeps_log | apply keeps_ret].
Qed.

Lemma keeps_read c : keeps (posts_records_only sender) (read_and_process env sender c).
Proof.
  unfold read_and_process. apply keeps_bind; [intros w; apply adds_refl|].
  intros line. destruct (PyStr.truthy line); [|apply keeps_ret].
  destruct (PyStr.startswith _ _); [|apply keeps_ret].
  apply keeps_bind; [apply keeps_process_line | intros; apply keeps_ret].
Qed.

Lemma keeps_sleep secs : keeps (posts_records_only sender) (sleep env secs).
Proof.
  intros w. unfold sleep. destruct (secs <? 0); [apply adds_refl|].
  destruct (sleep_interrupted env (now w)); cbn [snd];
    exists [Sleep secs]; (split; [reflexivity | now repeat constructor]).
Qed.

Lemma keeps_list_txt_files : keeps (posts_records_only sender) (list_txt_files env).
Proof.
  intros w. rewrite list_txt_files_listing. cbn [snd].
  exists [ListDir]. split; [reflexivity | now repeat constructor].
Qed.

Lemma keeps_engine_step wait_time st :
  keeps (posts_records_only sender) (engine_step env sender wait_time st).
Proof.
  destruct st as [current|c]; cbn [engine_step].
  - apply keeps_bind.
    + intros w. unfold open_file.
      assert (Ho : adds (posts_records_only sender) w (emit (Open current) w))
        by now apply adds_emit.
      destruct (open_error env (now w) current); exact Ho.
    + intros _. apply keeps_bind; [apply keeps_log | intros; apply keeps_ret].
  - apply keeps_bind; [|intros; apply keeps_ret].
    unfold inner_iteration. apply keeps_bind; [apply keeps_read|].
    intros r. destruct (fst r); [apply keeps_ret|].
    apply keeps_bind; [apply keeps_sleep|]. intros _.
    unfold retry_after_wait. apply keeps_bind; [apply keeps_read|].
    intros r'. destruct (fst r'); [apply keeps_ret|].
    unfold rotation_check. apply keeps_bind; [apply keeps_list_txt_files|].
    intros files. destruct (find_next_file _ _); apply keeps_ret.
Qed.

Lemma keeps_run fuel wait_time st :
  keeps (posts_records_only sender) (run env fuel sender wait_time st).
Proof.
  revert st. induction fuel as [|fuel IH]; intros st; cbn [run]; [apply keeps_ret|].
  apply keeps_bind; [apply keeps_engine_step | exact IH].
Qed.

End KeepsPosts.

(** X18.  Whatever the surroundings do and however long it runs, [main]
    only ever adds to the trace, and every run of curl it adds is
    [curl -f -sS -XPOST <INFLUXDB_URL> --data-binary <record>] with the
    timeout of 10, the record starting with [mydatameasurement,host=]. *)
Theorem main_only_posts_records
  (env : Env) (fuel : nat) (start : Path) (wait : Z) (w : World) :
  exists evs,
    trace (snd (main env fuel start wait w)) = (trace w ++ evs)%list
    /\ Forall (posts_records_only the_sender) evs.
Proof.
  change (adds (posts_records_only the_sender) w (snd (main env fuel start wait w))).
  unfold main. destruct (negb _); cbn [snd].
  - now apply adds_emit.
  - unfold guarded. fold the_sender.
    pose proof (keeps_run env the_sender fuel wait (AtOpen start) w) as Hrun.
    destruct (run env fuel the_sender wait (AtOpen start) w) as [[e|st] w1];
      cbn [snd] in *; [|exact Hrun].
    destruct e; cbn [snd];
      (eapply adds_trans; [exact Hrun|]);
      first [ apply (keeps_log the_sender)
            | apply (keeps_bind _ _ _ (keeps_log the_sender _)
                       (fun _ => keeps_print the_sender _)) ].
Qed.
